(** * sportsdataverse-js: the College Football service

    A shallow embedding of [app/services/cfb.service.js] and the properties
    its specification states about it.

    Layout:
    - [Js]       the fragment of JavaScript the service relies on: values,
                 completions (return / throw), string and number conversions;
    - [Scroll]   [autoScroll], the interval-driven scroll loop;
    - [Cfb]      the request builders, the page acquirer and the field
                 extractors of the exported operations;
    - theorems, one group per numbered claim of the specification. *)

From Stdlib Require Import ZArith List String Ascii Bool Lia Arith.
From Stdlib Require Import DecimalString.
Import ListNotations.

Set Warnings "-register-all".

Open Scope string_scope.
Open Scope Z_scope.

(* ================================================================== *)
(** ** The JavaScript fragment *)
(* ================================================================== *)

Module Js.

(** Numbers.  The service only does integer arithmetic (page and rank
    counters, pixel distances) and otherwise passes numbers through; [NaN]
    is what [parseInt] yields on text without digits, an infinity what it
    yields on more digits than a double holds.  Integers stand for
    themselves; what [parseInt] yields is rounded to a double, and what is
    printed is printed as the double is. *)
Inductive Number :=
| NaN
| Int (z : Z)
| Inf (negative : bool).

(** Values: what callers pass in and what [JSON.parse] hands back.  A finite
    number that is not an integer is kept by its literal ([VFloat]); nothing
    in the service computes with one. *)
Inductive Value :=
| VUndefined
| VNull
| VBool (b : bool)
| VNum (n : Number)
| VFloat (lit : string)
| VStr (s : string)
| VArr (items : list Value)
| VObj (fields : list (string * Value)).

Definition num (z : Z) : Value := VNum (Int z).

(** Errors carry their constructor name and message. *)
Record JsError := Err { err_name : string; err_message : string }.

Definition TypeError (m : string) : JsError := Err "TypeError" m.
Definition ReferenceError (x : string) : JsError :=
  Err "ReferenceError" (x ++ " is not defined").
Definition Error (m : string) : JsError := Err "Error" m.

(** A completion: the evaluation returned a value or threw. *)
Inductive Completion (A : Type) :=
| Returned (a : A)
| Thrown (e : JsError).
Arguments Returned {A} a.
Arguments Thrown {A} e.

Definition bindC {A B} (c : Completion A) (k : A -> Completion B) : Completion B :=
  match c with
  | Returned a => k a
  | Thrown e => Thrown e
  end.

Notation "x <- c ;; k" := (bindC c (fun x => k))
  (at level 61, c at next level, right associativity).

(** *** Strings *)

(** Text is kept as its UTF-8 bytes.  The white space [trim] and
    [parseInt] strip is, in one byte, TAB, LF, VT, FF, CR and the space;
    in two, U+00A0; in three, U+1680, U+2000 to U+200A, U+2028, U+2029,
    U+202F, U+205F, U+3000 and U+FEFF. *)
Definition is_white_space (c : ascii) : bool :=
  let n := nat_of_ascii c in
  ((9 <=? n) && (n <=? 13))%nat || (n =? 32)%nat.

Definition is_white_space2 (a b : ascii) : bool :=
  ((nat_of_ascii a =? 194) && (nat_of_ascii b =? 160))%nat.

Definition is_white_space3 (a b c : ascii) : bool :=
  let x := nat_of_ascii a in
  let y := nat_of_ascii b in
  let z := nat_of_ascii c in
  (((x =? 225) && (y =? 154) && (z =? 128))
   || ((x =? 226) && (y =? 128)
       && (((128 <=? z) && (z <=? 138)) || (z =? 168) || (z =? 169) || (z =? 175)))
   || ((x =? 226) && (y =? 129) && (z =? 159))
   || ((x =? 227) && (y =? 128) && (z =? 128))
   || ((x =? 239) && (y =? 187) && (z =? 191)))%nat.

(** [String.prototype.trimStart] *)
Fixpoint trimStart (s : string) : string :=
  match s with
  | EmptyString => EmptyString
  | String a r =>
      if is_white_space a then trimStart r
      else
        match r with
        | EmptyString => s
        | String b r2 =>
            if is_white_space2 a b then trimStart r2
            else
              match r2 with
              | EmptyString => s
              | String c r3 => if is_white_space3 a b c then trimStart r3 else s
              end
        end
  end.

Fixpoint rev_string (s acc : string) : string :=
  match s with
  | String c r => rev_string r (String c acc)
  | EmptyString => acc
  end.

(** [trimStart] on text read backwards, the bytes of a character coming
    last first. *)
Fixpoint trimStart_backwards (s : string) : string :=
  match s with
  | EmptyString => EmptyString
  | String a r =>
      if is_white_space a then trimStart_backwards r
      else
        match r with
        | EmptyString => s
        | String b r2 =>
            if is_white_space2 b a then trimStart_backwards r2
            else
              match r2 with
              | EmptyString => s
              | String c r3 =>
                  if is_white_space3 c b a then trimStart_backwards r3 else s
              end
        end
  end.

(** [String.prototype.trimEnd] *)
Definition trimEnd (s : string) : string :=
  rev_string (trimStart_backwards (rev_string s "")) "".

(** [String.prototype.trim] *)
Definition trim (s : string) : string := trimEnd (trimStart s).

Definition lower_ascii (c : ascii) : ascii :=
  let n := nat_of_ascii c in
  if ((65 <=? n) && (n <=? 90))%nat then ascii_of_nat (n + 32) else c.

(** [String.prototype.toLowerCase], on the letters A to Z: it is applied
    to the service name only after [rankings_target] has accepted it, and
    the names it accepts are ASCII. *)
Fixpoint toLowerCase (s : string) : string :=
  match s with
  | String c r => String (lower_ascii c) (toLowerCase r)
  | EmptyString => EmptyString
  end.

(** [s.split(sep)] for a non-empty separator: [skip] counts the characters
    of a matched separator still to be passed over. *)
Fixpoint split_from (sep s : string) (skip : nat) (cur : string) : list string :=
  match s with
  | EmptyString => [cur]
  | String c r =>
      match skip with
      | S k => split_from sep r k cur
      | O =>
          if prefix sep s
          then cur :: split_from sep r (Nat.pred (String.length sep)) ""
          else split_from sep r O (cur ++ String c "")
      end
  end.

Definition split (sep s : string) : list string := split_from sep s O "".

(** [s.replace(pat, by)] with a string pattern: the first occurrence only. *)
Fixpoint replace_from (pat by_ s : string) (skip : nat) (done : bool) : string :=
  match s with
  | EmptyString => EmptyString
  | String c r =>
      match skip with
      | S k => replace_from pat by_ r k done
      | O =>
          if negb done && prefix pat s
          then by_ ++ replace_from pat by_ r (Nat.pred (String.length pat)) true
          else String c (replace_from pat by_ r O done)
      end
  end.

Definition replace (pat by_ s : string) : string := replace_from pat by_ s O false.

(** *** Conversions *)

Definition Z_to_string (z : Z) : string := NilZero.string_of_int (Z.to_int z).

(** The double nearest to an integer, ties going to the even mantissa;
    an infinity from 2^1024 on. *)
Definition to_double (z : Z) : Number :=
  let a := Z.abs z in
  if a <? 2 ^ 53 then Int z
  else
    let shift := Z.log2 a - 52 in
    let q := Z.shiftr a shift in
    let r := a - Z.shiftl q shift in
    let half := Z.shiftl 1 (shift - 1) in
    let q' := if (half <? r) || ((r =? half) && Z.odd q) then q + 1 else q in
    let m := Z.shiftl q' shift in
    if 2 ^ 1024 <=? m then Inf (z <? 0) else Int (Z.sgn z * m).

Definition rounds_to (m c : Z) : bool :=
  match to_double c with
  | Int z => z =? m
  | _ => false
  end.

(** The fewest decimal digits [s], with the power [p] of ten, for which
    [s * 10^p] is read back as the double [m]; of two such the nearer to
    [m], then the even one.  [n] is the number of digits of [m], [k] the
    number of digits tried. *)
Fixpoint shortest_from (m n : Z) (fuel : nat) (k : Z) : Z * Z :=
  match fuel with
  | O => (m, 0)
  | S fuel' =>
      let p := 10 ^ (n - k) in
      let lo := m / p in
      let hi := lo + 1 in
      let below := m - lo * p in
      let above := hi * p - m in
      match rounds_to m (lo * p), rounds_to m (hi * p) with
      | true, true =>
          if (below <? above) || ((below =? above) && Z.even lo)
          then (lo, n - k) else (hi, n - k)
      | true, false => (lo, n - k)
      | false, true => (hi, n - k)
      | false, false => shortest_from m n fuel' (k + 1)
      end
  end.

Fixpoint strip_zeros (fuel : nat) (sp : Z * Z) : Z * Z :=
  match fuel with
  | O => sp
  | S fuel' =>
      let '(s, p) := sp in
      if (s mod 10 =? 0) && negb (s =? 0)
      then strip_zeros fuel' (s / 10, p + 1) else sp
  end.

Fixpoint zeros (n : nat) : string :=
  match n with
  | O => ""
  | S n' => String "0" (zeros n')
  end.

(** [Number::toString] of a positive integral double from 2^53 on: its
    shortest digits, filled up with zeros below 1e21 and in exponent
    notation from there. *)
Definition double_to_string (m : Z) : string :=
  let n := Z.of_nat (String.length (Z_to_string m)) in
  let '(s, p) := strip_zeros 21 (shortest_from m n 17 1) in
  let digits := Z_to_string s in
  let n' := Z.of_nat (String.length digits) + p in
  if n' <=? 21 then digits ++ zeros (Z.to_nat p)
  else
    match digits with
    | String d "" => String d "" ++ "e+" ++ Z_to_string (n' - 1)
    | String d rest => String d "" ++ "." ++ rest ++ "e+" ++ Z_to_string (n' - 1)
    | EmptyString => ""
    end.

(** An integer below 2^53 prints as its digits; a larger one as the double
    nearest to it. *)
Definition Int_to_string (z : Z) : string :=
  if Z.abs z <? 2 ^ 53 then Z_to_string z
  else
    match to_double (Z.abs z) with
    | Int m => (if z <? 0 then "-" else "") ++ double_to_string m
    | _ => if z <? 0 then "-Infinity" else "Infinity"
    end.

Definition Number_to_string (n : Number) : string :=
  match n with
  | NaN => "NaN"
  | Int z => Int_to_string z
  | Inf false => "Infinity"
  | Inf true => "-Infinity"
  end.

(** [ToString]; an array joins its elements with commas, [null] and
    [undefined] elements printing as nothing. *)
Fixpoint ToString (v : Value) : string :=
  match v with
  | VUndefined => "undefined"
  | VNull => "null"
  | VBool true => "true"
  | VBool false => "false"
  | VNum n => Number_to_string n
  | VFloat lit => lit
  | VStr s => s
  | VArr items =>
      let element (x : Value) : string :=
        match x with
        | VUndefined | VNull => ""
        | _ => ToString x
        end in
      (fix join (l : list Value) : string :=
         match l with
         | [] => ""
         | [x] => element x
         | x :: r => element x ++ "," ++ join r
         end) items
  | VObj _ => "[object Object]"
  end.

(** [ToBoolean] *)
Definition truthy (v : Value) : bool :=
  match v with
  | VUndefined | VNull => false
  | VBool b => b
  | VNum NaN => false
  | VNum (Int z) => negb (z =? 0)
  | VNum (Inf _) => true
  | VFloat _ => true
  | VStr s => negb (s =? "")%string
  | VArr _ | VObj _ => true
  end.

Definition digit_value (radix : Z) (c : ascii) : option Z :=
  let n := Z.of_nat (nat_of_ascii c) in
  let d :=
    if (48 <=? n) && (n <=? 57) then n - 48
    else if (97 <=? n) && (n <=? 122) then n - 87
    else if (65 <=? n) && (n <=? 90) then n - 55
    else radix in
  if d <? radix then Some d else None.

(** The longest prefix of radix digits, as a number; [None] when empty. *)
Fixpoint parse_digits (radix : Z) (s : string) (acc : option Z) : option Z :=
  match s with
  | String c r =>
      match digit_value radix c with
      | Some d =>
          parse_digits radix r
            (Some (radix * match acc with Some a => a | None => 0 end + d))
      | None => acc
      end
  | EmptyString => acc
  end.

Definition strip_sign (s : string) : Z * string :=
  match s with
  | String "-" r => (-1, r)
  | String "+" r => (1, r)
  | _ => (1, s)
  end.

Definition strip_hex_prefix (s : string) : option string :=
  match s with
  | String "0" (String "x" r) | String "0" (String "X" r) => Some r
  | _ => None
  end.

Definition signed_digits (sign radix : Z) (s : string) : Number :=
  match parse_digits radix s None with
  | Some m => to_double (sign * m)
  | None => NaN
  end.

(** [parseInt(v)]: no radix given, so a [0x] prefix selects base 16. *)
Definition parseInt (v : Value) : Number :=
  let '(sign, s) := strip_sign (trimStart (ToString v)) in
  match strip_hex_prefix s with
  | Some hex => signed_digits sign 16 hex
  | None => signed_digits sign 10 s
  end.

(** [parseInt(v, 10)] *)
Definition parseInt10 (v : Value) : Number :=
  let '(sign, s) := strip_sign (trimStart (ToString v)) in
  signed_digits sign 10 s.

(** *** Property access *)

Fixpoint assoc (k : string) (fields : list (string * Value)) : option Value :=
  match fields with
  | [] => None
  | (k', v) :: r => if (k =? k')%string then Some v else assoc k r
  end.

(** [v.k] for a data key [k]: reading through [undefined] or [null] throws,
    an object yields the field or [undefined]; the keys the service reads
    are not built-in properties of arrays, strings or numbers, which
    therefore yield [undefined]. *)
Definition get (v : Value) (k : string) : Completion Value :=
  match v with
  | VUndefined =>
      Thrown (TypeError ("Cannot read properties of undefined (reading '" ++ k ++ "')"))
  | VNull =>
      Thrown (TypeError ("Cannot read properties of null (reading '" ++ k ++ "')"))
  | VObj fields =>
      Returned (match assoc k fields with Some x => x | None => VUndefined end)
  | _ => Returned VUndefined
  end.

(** [v[i]] for an array index. *)
Definition index (v : Value) (i : nat) : Completion Value :=
  match v with
  | VUndefined =>
      Thrown (TypeError "Cannot read properties of undefined")
  | VNull =>
      Thrown (TypeError "Cannot read properties of null")
  | VArr items => Returned (nth i items VUndefined)
  | VStr s =>
      Returned (match String.get i s with
                | Some c => VStr (String c "")
                | None => VUndefined
                end)
  | VObj fields =>
      Returned (match assoc (Z_to_string (Z.of_nat i)) fields with
                | Some x => x
                | None => VUndefined
                end)
  | _ => Returned VUndefined
  end.

(** The values a [for ... of] visits. *)
Definition iterate (v : Value) : Completion (list Value) :=
  match v with
  | VArr items => Returned items
  | VStr s => Returned (map (fun c => VStr (String c "")) (list_ascii_of_string s))
  | _ => Thrown (TypeError (ToString v ++ " is not iterable"))
  end.

(** A default parameter value applies exactly when the argument is
    [undefined], which is also what an omitted property destructures to. *)
Definition default_to (d v : Value) : Value :=
  match v with
  | VUndefined => d
  | _ => v
  end.

End Js.

(* ================================================================== *)
(** ** The incremental scroll loop *)
(* ================================================================== *)

Module Scroll.

(** What one firing of the interval callback reads from the page:
    [document.querySelectorAll('table tbody tr').length] and
    [document.body.scrollHeight]. *)
Record PageView := { rows_length : Z; scrollHeight : Z }.

(** A page behaviour tells what the [k]-th firing observes ([k = 1] is the
    first one, 500ms after the interval is installed).  How far the loop
    has scrolled is a function of [k] alone, so this covers every way a
    page can react to the scrolling. *)
Definition PageBehaviour := nat -> PageView.

(** The two variables the callback closes over. *)
Record LoopState := { totalHeight : Z; attempts : Z }.

Definition distance : Z := 100.
Definition maxAttempts : Z := 20.
Definition interval_ms : Z := 500.
Definition defaultTargetRowCount : Z := 250.

Definition initial : LoopState := {| totalHeight := 0; attempts := 0 |}.

(** One firing: [inr tt] when the callback clears the interval and resolves
    the promise, [inl st] when the loop goes on with state [st]. *)
Definition timer_callback (targetRowCount : Z) (view : PageView) (st : LoopState)
  : LoopState + unit :=
  let totalHeight' := totalHeight st + distance in
  if (rows_length view >=? targetRowCount) || (attempts st >=? maxAttempts)
  then inr tt
  else if totalHeight' >=? scrollHeight view
       then inl {| totalHeight := totalHeight'; attempts := attempts st + 1 |}
       else inl {| totalHeight := totalHeight'; attempts := attempts st |}.

(** The interval from firing [k] on, observed for at most [fuel] firings:
    [Some n] when the promise resolves at firing [n], [None] when it is
    still pending after them. *)
Fixpoint interval_from (page : PageBehaviour) (targetRowCount : Z)
    (fuel k : nat) (st : LoopState) : option nat :=
  match fuel with
  | O => None
  | S fuel' =>
      match timer_callback targetRowCount (page k) st with
      | inr _ => Some k
      | inl st' => interval_from page targetRowCount fuel' (S k) st'
      end
  end.

(** [autoScroll(page, targetRowCount = 250)] watched for [fuel] firings. *)
Definition autoScroll (page : PageBehaviour) (targetRowCount : option Z) (fuel : nat)
  : option nat :=
  interval_from page
    (match targetRowCount with Some t => t | None => defaultTargetRowCount end)
    fuel 1%nat initial.

(** Wall-clock time at which firing [n] happens. *)
Definition elapsed_ms (n : nat) : Z := interval_ms * Z.of_nat n.

End Scroll.

(* ================================================================== *)
(** ** The service *)
(* ================================================================== *)

Module Cfb.
Import Js.

(** *** Collaborators *)

(** A cheerio selection of one row or card, as far as the extractors look
    at it.  The argument is always the selector handed to [html.find]. *)
Record Element := {
  find_text : string -> string;               (* html.find(sel).text() *)
  find_length : string -> nat;                (* html.find(sel).length *)
  find_attr : string -> string -> option string;  (* html.find(sel).attr(name) *)
  find_first_text : string -> string;         (* html.find(sel).first().text() *)
  find_own_text : string -> string;
    (* html.find(sel).clone().children().remove().end().text() *)
  find_find_length : string -> string -> nat; (* html.find(a).find(b).length *)
}.

(** A loaded document: [$(selector)] gives the matched elements in
    document order. *)
Definition Cheerio := string -> list Element.

Record AxiosConfig := {
  headers : list (string * string);
  params : option (list (string * Value));
}.

(** What reaches the outside world. *)
Inductive Event :=
| AxiosGet (url : string) (config : AxiosConfig)
| PuppeteerLaunch
| BrowserNewPage
| PageGoto (url : string)
| PageEvaluateScroll (firings : nat)
| PageContent
| BrowserClose.

(** The outside world: what a GET answers ([res.data], or the rejection),
    how the page at a URL behaves under scrolling, and its rendered content
    after a number of firings. *)
Record World := {
  axios_get : string -> AxiosConfig -> Completion Value;
  page_behaviour : string -> Scroll.PageBehaviour;
  page_content : string -> nat -> Value;
}.

(** Identifiers the service uses without declaring them are looked up on
    the global object of the host.  Two occur: [$] and [attributes]. *)
Record GlobalObject := {
  global_dollar : option Cheerio;
  global_attributes : option (list Value);
}.

(** Node.js, the host of this package, defines neither. *)
Definition node_global : GlobalObject :=
  {| global_dollar := None; global_attributes := None |}.

Definition resolve {A} (name : string) (binding : option A) : Completion A :=
  match binding with
  | Some x => Returned x
  | None => Thrown (ReferenceError name)
  end.

(** An [async] function observed for a bounded time: the events it caused
    and, when it settled, how. *)
Definition Async (A : Type) : Type := list Event * option (Completion A).

Definition retA {A} (a : A) : Async A := ([], Some (Returned a)).
Definition liftC {A} (c : Completion A) : Async A := ([], Some c).
Definition emit (e : Event) : Async unit := ([e], Some (Returned tt)).
Definition pending {A} : Async A := ([], None).

Definition bindA {A B} (m : Async A) (k : A -> Async B) : Async B :=
  match m with
  | (tr, Some (Returned a)) => let (tr', r) := k a in ((tr ++ tr')%list, r)
  | (tr, Some (Thrown e)) => (tr, Some (Thrown e))
  | (tr, None) => (tr, None)
  end.

Notation "x <~ c ;; k" := (bindA c (fun x => k))
  (at level 61, c at next level, right associativity).

Definition trace {A} (m : Async A) : list Event := fst m.
Definition outcome {A} (m : Async A) : option (Completion A) := snd m.

Definition LF : string := String (ascii_of_nat 10) "".

Definition user_agent : string * string :=
  ("User-Agent",
   "Mozilla/5.0 (Windows NT 6.1) AppleWebKit/537.36 (KHTML, like Gecko) Chrome/41.0.2228.0 Safari/537.36").

Definition str_eqb (a b : string) : bool := (a =? b)%string.

(** [v !== ''] *)
Definition not_empty_string (v : Value) : bool :=
  match v with
  | VStr s => negb (str_eqb s "")
  | _ => true
  end.

(** [v === 0] *)
Definition is_zero (v : Value) : bool :=
  match v with
  | VNum (Int 0) => true
  | _ => false
  end.

(** [fetchRankingsData], in a session in which no call on the browser
    rejects; [Puppeteer.fetchRankingsData] below lets each of them fail. *)
Definition fetchRankingsData (w : World) (fuel : nat)
    (baseUrl : string) (axiosConfig : AxiosConfig) (service : string)
  : Async Value :=
  if str_eqb (toLowerCase service) "rivals" then
    _ <~ emit PuppeteerLaunch ;;
    _ <~ emit BrowserNewPage ;;
    _ <~ emit (PageGoto baseUrl) ;;
    match Scroll.autoScroll (page_behaviour w baseUrl) None fuel with
    | Some n =>
        _ <~ emit (PageEvaluateScroll n) ;;
        _ <~ emit PageContent ;;
        _ <~ emit BrowserClose ;;
        retA (page_content w baseUrl n)
    | None =>
        _ <~ emit (PageEvaluateScroll fuel) ;;
        pending
    end
  else
    _ <~ emit (AxiosGet baseUrl axiosConfig) ;;
    liftC (axios_get w baseUrl axiosConfig).

(** *** getPicks *)

Definition summary_url : string :=
  "http://site.api.espn.com/apis/site/v2/sports/football/college-football/summary".

Definition picks_record (data : Value) : Completion Value :=
  header <- get data "header" ;;
  id <- get header "id" ;;
  gameInfo <- get data "gameInfo" ;;
  leaders <- get data "leaders" ;;
  competitions <- get header "competitions" ;;
  first <- index competitions 0 ;;
  competitors <- get first "competitors" ;;
  winprobability <- get data "winprobability" ;;
  againstTheSpread <- get data "againstTheSpread" ;;
  odds <- get data "odds" ;;
  season <- get header "season" ;;
  week <- get header "week" ;;
  standings <- get data "standings" ;;
  Returned (VObj [
    ("id", VNum (parseInt id));
    ("gameInfo", gameInfo);
    ("leaders", leaders);
    ("header", header);
    ("teams", competitors);
    ("competitions", competitions);
    ("winProbability", winprobability);
    ("pickcenter", winprobability);
    ("againstTheSpread", againstTheSpread);
    ("odds", odds);
    ("season", season);
    ("week", week);
    ("standings", standings) ]).

Definition getPicks (w : World) (id : Value) : Async Value :=
  let baseUrl := summary_url in
  let params := [("event", id)] in
  let config := {| headers := []; params := Some params |} in
  _ <~ emit (AxiosGet baseUrl config) ;;
  data <~ liftC (axios_get w baseUrl config) ;;
  liftC (picks_record data).

(** *** getPlayerRankings: the request *)

(** The [if]/[else if] chain on [service]: the URL and, for the vendors
    that get one, the [params] object. *)
Definition rankings_target (year : Value) (page : Z)
    (group position state : Value) (service : string)
  : Completion (string * option (list (string * Value))) :=
  if str_eqb service "247Composite" then
    Returned
      ("http://247sports.com/Season/" ++ ToString year
         ++ "-Football/CompositeRecruitRankings",
       Some [("InstitutionGroup", group); ("Page", num page);
             ("Position", position); ("State", state)])
  else if str_eqb service "247" then
    Returned
      ("http://247sports.com/Season/" ++ ToString year
         ++ "-Football/recruitrankings",
       Some [("InstitutionGroup", group); ("Page", num page);
             ("Position", position); ("State", state)])
  else if str_eqb service "Rivals" then
    Returned
      ("https://n.rivals.com/prospect_rankings/rivals250/" ++ ToString year,
       None)
  else if str_eqb service "On3" then
    Returned
      ("https://www.on3.com/db/rankings/player/football/" ++ ToString year ++ "/",
       None)
  else if str_eqb service "On3Composite" then
    Returned
      ("https://www.on3.com/db/rankings/industry-player/football/"
         ++ ToString year ++ "/",
       None)
  else if str_eqb service "ESPN" then
    Returned
      ("https://sports.core.api.espn.com/v2/sports/football/leagues/college-football/recruiting/"
         ++ ToString year ++ "/athletes?page=" ++ ToString (num page),
       Some [("lang", VStr "en"); ("region", VStr "us")])
  else
    Thrown (Error "Invalid rankings type").

(** [axiosConfig] after the [Object.keys(params).length > 0] test. *)
Definition rankings_config (params : option (list (string * Value))) : AxiosConfig :=
  {| headers := [user_agent];
     params := match params with
               | Some (_ :: _) => params
               | _ => None
               end |}.

(** *** getPlayerRankings: the extractors *)

(** The callback of [.each] in the 247 branch; [rank] is the counter the
    enclosing block keeps. *)
Definition player_247 (parseFloat : string -> Value) (rank : Z) (html : Element)
  : Value :=
  let metrics := split "/" (find_text html ".metrics") in
  VObj [
    ("ranking", num rank);
    ("name", VStr (trim (find_text html ".rankings-page__name-link")));
    ("highSchool", VStr (trim (find_text html "span.meta")));
    ("position", VStr (trim (find_text html ".position")));
    ("height", VStr (trim (nth 0 metrics "")));
    ("weight",
      match nth_error metrics 1 with
      | Some m1 =>
          if negb (str_eqb m1 "")
          then match parseInt10 (VStr (trim m1)) with
               | NaN => num 0
               | n => VNum n
               end
          else num 0
      | None => num 0
      end);
    ("stars", num (Z.of_nat (find_length html ".rankings-page__star-and-score > .yellow")));
    ("rating", parseFloat (trim (trim (find_text html ".score"))));
    ("college",
      match find_attr html ".img-link > img" "title" with
      | Some t => if str_eqb t "" then VStr "uncommitted" else VStr t
      | None => VStr "uncommitted"
      end) ].

(** The rows in document order, [rank++] after each. *)
Fixpoint each_ranked (callback : Z -> Element -> Value) (rank : Z)
    (rows : list Element) : list Value :=
  match rows with
  | [] => []
  | html :: rest => callback rank html :: each_ranked callback (rank + 1) rest
  end.

Definition selector_247 : string :=
  "ul.rankings-page__list > li.rankings-page__list-item:not(.rankings-page__list-item--header)".

Definition players_247 (parseFloat : string -> Value) (dollar : Cheerio) (page : Z)
  : list Value :=
  let rank := 1 + 50 * (page - 1) in
  each_ranked (player_247 parseFloat) rank (dollar selector_247).

Definition player_rivals (html : Element) : Value :=
  let parts := split (LF ++ LF) (trim (find_text html "span.pos")) in
  let position := nth 0 parts "" in
  let weight := last parts "" in
  VObj [
    ("ranking", VStr (trim (find_text html "span.ordinality")));
    ("name", VStr (trim (find_text html "div.first-name") ++ " "
                     ++ trim (find_text html "div.last-name")));
    ("highSchool",
      VStr (replace (LF ++ LF) " " (trim (find_text html "div.break-text"))));
    ("position", VStr position);
    ("height", VStr (trim (find_text html "span.height")));
    ("weight", VStr weight);
    ("stars", num (Z.of_nat (find_length html "rv-stars i.star-on")));
    ("rating", VStr (trim (trim (find_text html ".score"))));
    ("college",
      VStr (nth 0 (split LF (trim (find_text html "div.school-name"))) "")) ].

Definition players_rivals (dollar : Cheerio) : list Value :=
  map player_rivals (dollar "div.scrollable-table-container table > tbody > tr").

Definition player_on3 (html : Element) : Value :=
  let college :=
    if (0 <? find_length html "img.PlayerRankingItem_committedLogo__w1QtO")%nat
    then match find_attr html "img.PlayerRankingItem_committedLogo__w1QtO" "title" with
         | Some t => VStr t
         | None => VUndefined
         end
    else if (0 <? find_length html "div.PlayerRankingItem_prediction__LXknz")%nat
    then VStr "uncommitted"
    else VStr "unknown" in
  let highSchool := trim (find_text html "a.PlayerRankingItem_highSchool__yTm5m") in
  let homeTown := trim (find_text html "span.PlayerRankingItem_homeTownName__C2R9c") in
  VObj [
    ("ranking", VStr (trim (find_text html "p.PlayerRankingItem_overallRank__ttJJC")));
    ("name", VStr (trim (find_text html "div.PlayerRankingItem_name__Xrs6_")));
    ("highSchool", VStr (highSchool ++ " " ++ homeTown));
    ("position", VStr (trim (find_text html "span.PlayerRankingItem_position__xH0rl")));
    ("height", VStr (find_text html "span.PlayerRankingItem_height__zEWyC"));
    ("weight", num 0);
    ("stars", num (Z.of_nat (find_find_length html "span.StarRating_star__GR_Ff"
                                "span.MuiRating-iconFilled")));
    ("college", college);
    ("rating", VStr (trim (find_text html "span.StarRating_overallRating__wz9dE")));
    ("nilValue", VStr (trim (find_text html "p.PlayerRankingItem_nilValuation__hzo42"))) ].

Definition players_on3 (dollar : Cheerio) : list Value :=
  map player_on3
    (dollar "section.PlayerRankings_playerRankings__7DK27 > div.PlayerRankingItem_playerRankingItem__P26jQ").

(** [attributes.find(attr => attr.type === 0)] *)
Fixpoint find_type0 (attributes : list Value) : Completion Value :=
  match attributes with
  | [] => Returned VUndefined
  | attr :: rest =>
      type <- get attr "type" ;;
      if is_zero type then Returned attr else find_type0 rest
  end.

(** The body of the [for ... of] loop in the ESPN branch, [rank++] included. *)
Fixpoint players_espn (attributes : option (list Value)) (rank : Z)
    (allItems : list Value) : Completion (list Value) :=
  match allItems with
  | [] => Returned []
  | record :: rest =>
      athlete <- get record "athlete" ;;
      pos <- get athlete "position" ;;
      position <- get pos "abbreviation" ;;
      attrs <- resolve "attributes" attributes ;;
      type0Attribute <- find_type0 attrs ;;
      finalRank <- (if truthy type0Attribute
                    then get type0Attribute "value"
                    else Returned (num rank)) ;;
      id <- get athlete "id" ;;
      alt_id <- get athlete "alternateId" ;;
      fullName <- get athlete "fullName" ;;
      hometown <- get athlete "hometown" ;;
      city <- get hometown "city" ;;
      stateAbbreviation <- get hometown "stateAbbreviation" ;;
      height <- get athlete "height" ;;
      weight <- get athlete "weight" ;;
      grade <- get record "grade" ;;
      let player := VObj [
        ("id", id);
        ("alt_id", alt_id);
        ("ranking", finalRank);
        ("name", fullName);
        ("highSchool", VStr (ToString city ++ ", " ++ ToString stateAbbreviation));
        ("position", position);
        ("height", height);
        ("weight", weight);
        ("stars", num 0);
        ("college", VStr "");
        ("rating", grade) ] in
      players <- players_espn attributes (rank + 1) rest ;;
      Returned (player :: players)
  end.

Section Operations.

(** Two library functions stay abstract: [parseFloat] and [cheerio.load]. *)
Variable parseFloat : string -> Value.
Variable cheerio_load : Value -> Cheerio.

(** Lines 275-395: everything after the fetch.  The document loaded from
    the response is bound by a [let] inside the block of the [if], so the
    branches below do not see it: their [$] is the global one. *)
Definition extract_rankings (g : GlobalObject) (htmlResponse : Value)
    (page : Z) (service : string) : Completion (list Value) :=
  let block_scoped :=
    if negb (str_eqb (toLowerCase service) "espn")
    then Some (cheerio_load htmlResponse)
    else None in
  let lower := toLowerCase service in
  if str_eqb lower "247" || str_eqb lower "247composite" then
    dollar <- resolve "$" (global_dollar g) ;;
    Returned (players_247 parseFloat dollar page)
  else if str_eqb lower "rivals" then
    dollar <- resolve "$" (global_dollar g) ;;
    Returned (players_rivals dollar)
  else if str_eqb lower "on3" || str_eqb lower "on3composite" then
    dollar <- resolve "$" (global_dollar g) ;;
    Returned (players_on3 dollar)
  else if str_eqb lower "espn" then
    allItems <- get htmlResponse "items" ;;
    let rank := 1 + 25 * (page - 1) in
    records <- iterate allItems ;;
    players_espn (global_attributes g) rank records
  else
    Returned [].

(** [getPlayerRankings({year, page = 1, group = "HighSchool",
    position = null, state = null, service = "247Composite"})];
    [None] and [VUndefined] stand for an option the caller left out. *)
Definition getPlayerRankings (g : GlobalObject) (w : World) (fuel : nat)
    (year : Value) (page : option Z) (group position state : Value)
    (service : option string) : Async (list Value) :=
  let page := match page with Some p => p | None => 1 end in
  let group := default_to (VStr "HighSchool") group in
  let position := default_to VNull position in
  let state := default_to VNull state in
  let service := match service with Some s => s | None => "247Composite" end in
  target <~ liftC (rankings_target year page group position state service) ;;
  let '(baseUrl, params) := target in
  let axiosConfig := rankings_config params in
  htmlResponse <~ fetchRankingsData w fuel baseUrl axiosConfig service ;;
  liftC (extract_rankings g htmlResponse page service).

(** *** getSchoolCommits *)

Definition commit_player (html : Element) : Value :=
  let metrics := split "/" (find_text html ".metrics") in
  VObj [
    ("name", VStr (trim (find_text html ".ri-page__name-link")));
    ("highSchool", VStr (trim (find_text html "span.meta")));
    ("position", VStr (trim (find_text html ".position")));
    ("height", VStr (nth 0 metrics ""));
    ("weight", match nth_error metrics 1 with
               | Some m1 => VStr m1
               | None => VUndefined
               end);
    ("stars", num (Z.of_nat (find_length html ".ri-page__star-and-score .yellow")));
    ("rating", VStr (trim (find_own_text html "span.score")));
    ("nationalRank", VStr (trim (find_first_text html ".natrank")));
    ("stateRank", VStr (trim (find_first_text html ".sttrank")));
    ("positionRank", VStr (trim (find_first_text html ".posrank"))) ].

(** [player[k]] on a record the extractors built. *)
Definition field (k : string) (player : Value) : Value :=
  match get player k with
  | Returned v => v
  | Thrown _ => VUndefined
  end.

(** [player => player.name !== '' && player.rating !== ''] *)
Definition has_name_and_rating (player : Value) : bool :=
  not_empty_string (field "name" player) && not_empty_string (field "rating" player).

Definition commits_of (dollar : Cheerio) : list Value :=
  let players := map commit_player (dollar ".ri-page__list-item") in
  filter has_name_and_rating players.

Definition getSchoolCommits (w : World) (school year : Value) : Async (list Value) :=
  let baseUrl :=
    "http://" ++ ToString school ++ ".247sports.com/Season/" ++ ToString year
      ++ "-Football/Commits" in
  let config := {| headers := [user_agent]; params := None |} in
  _ <~ emit (AxiosGet baseUrl config) ;;
  data <~ liftC (axios_get w baseUrl config) ;;
  let dollar := cheerio_load data in
  retA (commits_of dollar).

(** *** getSchedule and getScoreboard *)

(** [parseInt(x) <= 9 ? "0" + parseInt(x) : parseInt(x)], as it prints
    inside the template literal. *)
Definition padded (x : Value) : string :=
  match parseInt x with
  | Int z => if z <=? 9 then "0" ++ Number_to_string (Int z)
             else Number_to_string (Int z)
  | Inf true => "0" ++ Number_to_string (Inf true)
  | n => Number_to_string n
  end.

(** The [dates] property, set only under [year && month && day]. *)
Definition dates_param (year month day : Value) : list (string * Value) :=
  if truthy year && truthy month && truthy day
  then [("dates", VStr (ToString year ++ padded month ++ padded day))]
  else [].

Definition schedule_params (year month day groups seasontype : Value)
  : list (string * Value) :=
  let groups := default_to (num 80) groups in
  let seasontype := default_to (num 2) seasontype in
  ([("groups", groups); ("seasontype", seasontype); ("xhr", num 1);
    ("render", VBool false); ("device", VStr "desktop"); ("userab", num 18)]
   ++ dates_param year month day)%list.

Definition schedule_url : string :=
  "http://cdn.espn.com/core/college-football/schedule".

Definition getSchedule (w : World) (year month day groups seasontype : Value)
  : Async Value :=
  let config := {| headers := [];
                   params := Some (schedule_params year month day groups seasontype) |} in
  _ <~ emit (AxiosGet schedule_url config) ;;
  data <~ liftC (axios_get w schedule_url config) ;;
  liftC (content <- get data "content" ;; get content "schedule").

Definition scoreboard_params (year month day groups seasontype limit : Value)
  : list (string * Value) :=
  let groups := default_to (num 80) groups in
  let seasontype := default_to (num 2) seasontype in
  let limit := default_to (num 300) limit in
  ([("groups", groups); ("seasontype", seasontype); ("limit", limit)]
   ++ dates_param year month day)%list.

Definition scoreboard_url : string :=
  "http://site.api.espn.com/apis/site/v2/sports/football/college-football/scoreboard".

Definition getScoreboard (w : World)
    (year month day groups seasontype limit : Value) : Async Value :=
  let config := {| headers := [];
                   params := Some (scoreboard_params year month day groups seasontype limit) |} in
  _ <~ emit (AxiosGet scoreboard_url config) ;;
  liftC (axios_get w scoreboard_url config).

End Operations.

(** *** The other operations on the network API *)

Definition playbyplay_url : string :=
  "http://cdn.espn.com/core/college-football/playbyplay".

Definition playbyplay_record (data : Value) : Completion Value :=
  gamepackageJSON <- get data "gamepackageJSON" ;;
  header <- get gamepackageJSON "header" ;;
  competitions <- get header "competitions" ;;
  first <- index competitions 0 ;;
  competitors <- get first "competitors" ;;
  gameId <- get data "gameId" ;;
  drives <- get gamepackageJSON "drives" ;;
  season <- get header "season" ;;
  week <- get header "week" ;;
  boxscore <- get gamepackageJSON "boxscore" ;;
  scoringPlays <- get gamepackageJSON "scoringPlays" ;;
  standings <- get gamepackageJSON "standings" ;;
  Returned (VObj [
    ("teams", competitors);
    ("id", gameId);
    ("drives", drives);
    ("competitions", competitions);
    ("season", season);
    ("week", week);
    ("boxScore", boxscore);
    ("scoringPlays", scoringPlays);
    ("standings", standings) ]).

Definition getPlayByPlay (w : World) (id : Value) : Async Value :=
  let baseUrl := playbyplay_url in
  let params := [("gameId", id); ("xhr", num 1); ("render", VStr "false");
                 ("userab", num 18)] in
  let config := {| headers := []; params := Some params |} in
  _ <~ emit (AxiosGet baseUrl config) ;;
  data <~ liftC (axios_get w baseUrl config) ;;
  liftC (playbyplay_record data).

(** The literal of [getSummary] names [leaders] twice; the second takes
    the place of the first, with the same value. *)
Definition summary_record (data : Value) : Completion Value :=
  header <- get data "header" ;;
  id <- get header "id" ;;
  boxscore <- get data "boxscore" ;;
  gameInfo <- get data "gameInfo" ;;
  drives <- get data "drives" ;;
  leaders <- get data "leaders" ;;
  competitions <- get header "competitions" ;;
  first <- index competitions 0 ;;
  competitors <- get first "competitors" ;;
  scoringPlays <- get data "scoringPlays" ;;
  winprobability <- get data "winprobability" ;;
  leaders' <- get data "leaders" ;;
  season <- get header "season" ;;
  week <- get header "week" ;;
  standings <- get data "standings" ;;
  Returned (VObj [
    ("id", VNum (parseInt id));
    ("boxScore", boxscore);
    ("gameInfo", gameInfo);
    ("drives", drives);
    ("leaders", leaders');
    ("header", header);
    ("teams", competitors);
    ("scoringPlays", scoringPlays);
    ("winProbability", winprobability);
    ("competitions", competitions);
    ("season", season);
    ("week", week);
    ("standings", standings) ]).

Definition getSummary (w : World) (id : Value) : Async Value :=
  let baseUrl := summary_url in
  let params := [("event", id)] in
  let config := {| headers := []; params := Some params |} in
  _ <~ emit (AxiosGet baseUrl config) ;;
  data <~ liftC (axios_get w baseUrl config) ;;
  liftC (summary_record data).

(** [getRankings({ year, week })]: each is sent only when truthy. *)
Definition poll_params (year week : Value) : list (string * Value) :=
  ((if truthy year then [("year", year)] else [])
   ++ (if truthy week then [("week", week)] else []))%list.

Definition poll_url : string := "http://cdn.espn.com/core/college-football/rankings".

Definition getRankings (w : World) (year week : Value) : Async Value :=
  let config := {| headers := []; params := Some (poll_params year week) |} in
  _ <~ emit (AxiosGet poll_url config) ;;
  liftC (axios_get w poll_url config).

(** [getConferences({ year = new Date().getFullYear(), group = 80 })];
    [currentYear] is what the clock says. *)
Definition conferences_url : string :=
  "http://site.api.espn.com/apis/site/v2/sports/football/college-football/scoreboard/conferences".

Definition getConferences (w : World) (currentYear : Z) (year group : Value)
  : Async Value :=
  let year := default_to (num currentYear) year in
  let group := default_to (num 80) group in
  let config := {| headers := [];
                   params := Some [("season", year); ("group", group)] |} in
  _ <~ emit (AxiosGet conferences_url config) ;;
  liftC (axios_get w conferences_url config).

Definition standings_url : string :=
  "https://site.web.api.espn.com/apis/v2/sports/football/college-football/standings".

Definition standings_sort : string :=
  "winpercent:desc,leaguewinpercent:desc,vsconf_winpercent:desc,"
    ++ "vsconf_gamesbehind:asc,vsconf_playoffseed:asc,wins:desc,"
    ++ "losses:desc,playoffseed:asc,alpha:asc".

Definition getStandings (w : World) (currentYear : Z) (year group : Value)
  : Async Value :=
  let year := default_to (num currentYear) year in
  let group := default_to (num 80) group in
  let config := {| headers := [];
                   params := Some [("region", VStr "us"); ("lang", VStr "en");
                                   ("contentorigin", VStr "espn");
                                   ("season", year); ("group", group);
                                   ("type", num 0); ("level", num 1);
                                   ("sort", VStr standings_sort)] |} in
  _ <~ emit (AxiosGet standings_url config) ;;
  liftC (axios_get w standings_url config).

Definition teams_url : string :=
  "http://site.api.espn.com/apis/site/v2/sports/football/college-football/teams".

Definition getTeamList (w : World) (group : Value) : Async Value :=
  let group := default_to (num 80) group in
  let config := {| headers := [];
                   params := Some [("group", group); ("limit", num 1000)] |} in
  _ <~ emit (AxiosGet teams_url config) ;;
  liftC (axios_get w teams_url config).

(** [axios.get(baseUrl)]: no configuration at all. *)
Definition getTeamInfo (w : World) (id : Value) : Async Value :=
  let baseUrl := teams_url ++ "/" ++ ToString id in
  let config := {| headers := []; params := None |} in
  _ <~ emit (AxiosGet baseUrl config) ;;
  liftC (axios_get w baseUrl config).

Definition getTeamPlayers (w : World) (id : Value) : Async Value :=
  let baseUrl := teams_url ++ "/" ++ ToString id in
  let config := {| headers := []; params := Some [("enable", VStr "roster")] |} in
  _ <~ emit (AxiosGet baseUrl config) ;;
  liftC (axios_get w baseUrl config).


(** *** getSchoolRankings *)

(** A list item of the team rankings page: a selection as before, and
    the text of the [i]-th element a selector matches under it,
    [$(html.find(sel)[i]).text()], empty when there is no such element. *)
Record RankingItem := {
  item_selection : Element;
  find_nth_text : string -> nat -> string;
}.

Definition star_commits : string := "ul.star-commits-list > li > div".

Definition school_record (html : RankingItem) : Value :=
  let text := fun sel => trim (find_text (item_selection html) sel) in
  VObj [
    ("rank", VStr (text ".rank-column .primary"));
    ("school", VStr (text ".rankings-page__name-link"));
    ("totalCommits", VStr (text ".total a"));
    ("fiveStars", VStr (trim (replace "5: " "" (find_nth_text html star_commits 0))));
    ("fourStars", VStr (trim (replace "4: " "" (find_nth_text html star_commits 1))));
    ("threeStars", VStr (trim (replace "3: " "" (find_nth_text html star_commits 2))));
    ("averageRating", VStr (text ".avg"));
    ("points", VStr (text ".number")) ].

(** [getSchoolRankings(year, page = 1)]; [load_items data selector] is
    [cheerio.load(data)(selector)] with its items seen as above. *)
Definition getSchoolRankings (load_items : Value -> string -> list RankingItem)
    (w : World) (year page : Value) : Async (list Value) :=
  let page := default_to (num 1) page in
  let baseUrl :=
    "http://247sports.com/Season/" ++ ToString year
      ++ "-Football/CompositeTeamRankings" in
  let config := {| headers := [user_agent]; params := Some [("Page", page)] |} in
  _ <~ emit (AxiosGet baseUrl config) ;;
  data <~ liftC (axios_get w baseUrl config) ;;
  retA (map school_record (load_items data ".rankings-page__list-item")).

End Cfb.

Import Js Scroll Cfb.

(* ================================================================== *)
(** ** The browser session, step by step *)
(* ================================================================== *)

(** [fetchRankingsData] above takes the browser for granted.  Each call it
    awaits on Puppeteer may reject, and nothing in the function catches a
    rejection: the function then rejects with the same error, at that
    point.  Here the outside world also says which steps fail. *)
Module Puppeteer.

(** For each awaited call the error it rejects with, if it does; for the
    evaluation of the scroll loop, also after how many firings, which
    matters only if the loop has not resolved by then. *)
Record Faults := {
  launch_fault : option JsError;
  newPage_fault : option JsError;
  goto_fault : option JsError;
  evaluate_fault : option (nat * JsError);
  content_fault : option JsError;
  close_fault : option JsError;
}.

Definition no_faults : Faults :=
  {| launch_fault := None; newPage_fault := None; goto_fault := None;
     evaluate_fault := None; content_fault := None; close_fault := None |}.

Definition step (fault : option JsError) : Completion unit :=
  match fault with
  | Some e => Thrown e
  | None => Returned tt
  end.

(** [await autoScroll(page)]: the firings seen, and how it ended. *)
Definition autoScroll (f : Faults) (page : Scroll.PageBehaviour) (fuel : nat)
  : Async nat :=
  match Scroll.autoScroll page None fuel with
  | Some n =>
      match evaluate_fault f with
      | Some (m, e) =>
          if (m <? n)%nat then ([PageEvaluateScroll m], Some (Thrown e))
          else ([PageEvaluateScroll n], Some (Returned n))
      | None => ([PageEvaluateScroll n], Some (Returned n))
      end
  | None =>
      match evaluate_fault f with
      | Some (m, e) =>
          if (m <=? fuel)%nat then ([PageEvaluateScroll m], Some (Thrown e))
          else ([PageEvaluateScroll fuel], None)
      | None => ([PageEvaluateScroll fuel], None)
      end
  end.

(** [fetchRankingsData] *)
Definition fetchRankingsData (f : Faults) (w : World) (fuel : nat)
    (baseUrl : string) (axiosConfig : AxiosConfig) (service : string)
  : Async Value :=
  if str_eqb (toLowerCase service) "rivals" then
    _ <~ emit PuppeteerLaunch ;;
    _ <~ liftC (step (launch_fault f)) ;;
    _ <~ emit BrowserNewPage ;;
    _ <~ liftC (step (newPage_fault f)) ;;
    _ <~ emit (PageGoto baseUrl) ;;
    _ <~ liftC (step (goto_fault f)) ;;
    n <~ autoScroll f (page_behaviour w baseUrl) fuel ;;
    _ <~ emit PageContent ;;
    _ <~ liftC (step (content_fault f)) ;;
    let content := page_content w baseUrl n in
    _ <~ emit BrowserClose ;;
    _ <~ liftC (step (close_fault f)) ;;
    retA content
  else
    _ <~ emit (AxiosGet baseUrl axiosConfig) ;;
    liftC (axios_get w baseUrl axiosConfig).

(** [getPlayerRankings], as above but for the fetch. *)
Definition getPlayerRankings
    (parseFloat : string -> Value) (cheerio_load : Value -> Cheerio)
    (g : GlobalObject) (f : Faults) (w : World) (fuel : nat)
    (year : Value) (page : option Z) (group position state : Value)
    (service : option string) : Async (list Value) :=
  let page := match page with Some p => p | None => 1 end in
  let group := default_to (VStr "HighSchool") group in
  let position := default_to VNull position in
  let state := default_to VNull state in
  let service := match service with Some s => s | None => "247Composite" end in
  target <~ liftC (rankings_target year page group position state service) ;;
  let '(baseUrl, params) := target in
  let axiosConfig := rankings_config params in
  htmlResponse <~ fetchRankingsData f w fuel baseUrl axiosConfig service ;;
  liftC (extract_rankings parseFloat cheerio_load g htmlResponse page service).

End Puppeteer.

(* ================================================================== *)
(** ** Vocabulary of the statements *)
(* ================================================================== *)

(** Among the firings 1 to [k], those at which the distance scrolled so
    far, 100px a firing, had reached the height the page then had. *)
Fixpoint bottoms (page : PageBehaviour) (k : nat) : Z :=
  match k with
  | O => 0
  | S k' =>
      bottoms page k'
      + (if scrollHeight (page k) <=? 100 * Z.of_nat k then 1 else 0)
  end.

(** Firing [k] finds the loop's condition to stop: the page shows the
    target number of rows, or twenty of the earlier firings were at the
    bottom. *)
Definition stops_at (page : PageBehaviour) (target : Z) (k : nat) : Prop :=
  target <= rows_length (page k) \/ 20 <= bottoms page (Nat.pred k).

(** The service identifiers [getPlayerRankings] knows. *)
Definition recognized : list string :=
  ["247Composite"; "247"; "Rivals"; "On3"; "On3Composite"; "ESPN"].

(** The value a request carries for query parameter [k]: read off the
    configuration of the first GET the operation issued. *)
Definition requested {A} (k : string) (m : Async A) : option Value :=
  match trace m with
  | AxiosGet _ config :: _ =>
      match params config with
      | Some ps => assoc k ps
      | None => None
      end
  | _ => None
  end.

(** The URL of the first GET the operation issued. *)
Definition request_url {A} (m : Async A) : option string :=
  match trace m with
  | AxiosGet url _ :: _ => Some url
  | _ => None
  end.

Definition is_AxiosGet (e : Event) : bool :=
  match e with
  | AxiosGet _ _ => true
  | _ => false
  end.

(** The ESPN recruiting URL for a year and a page. *)
Definition espn_url (year : Value) (page : Z) : string :=
  "https://sports.core.api.espn.com/v2/sports/football/leagues/college-football/recruiting/"
    ++ ToString year ++ "/athletes?page=" ++ ToString (num page).

(** Firings within which the loop stops on a page never higher than [H]:
    those needed to scroll past [H], at least one, and twenty more. *)
Definition firings_bound (H : Z) : nat :=
  (Nat.max 1 (Z.to_nat ((H + 99) / 100)) + 20)%nat.

(** The specification's date format, written out digit by digit. *)
Definition digit_char (d : Z) : ascii := ascii_of_nat (48 + Z.to_nat d).

Definition two_digits (n : Z) : string :=
  String (digit_char (n / 10)) (String (digit_char (n mod 10)) "").

Definition four_digits (n : Z) : string :=
  String (digit_char (n / 1000))
    (String (digit_char (n / 100 mod 10)) (two_digits (n mod 100))).

Definition yyyymmdd (y m d : Z) : string :=
  four_digits y ++ two_digits m ++ two_digits d.

(** A date as the operations document it: a four-digit year (YYYY), a
    month and a day of the month. *)
Definition date_triple (y m d : Z) : Prop :=
  1000 <= y <= 9999 /\ 1 <= m <= 12 /\ 1 <= d <= 31.

(** [record.athlete.position.abbreviation], the first thing the ESPN loop
    reads from a record. *)
Definition read_position (record : Value) : Completion Value :=
  athlete <- get record "athlete" ;;
  pos <- get athlete "position" ;;
  get pos "abbreviation".

(** The response with field [k] set to [v] (lookups take the first match). *)
Definition with_field (k : string) (v data : Value) : Value :=
  match data with
  | VObj fields => VObj ((k, v) :: fields)
  | _ => data
  end.

(** The page of a school's commitments, and the configuration it is
    fetched with. *)
Definition commits_url (school year : Value) : string :=
  "http://" ++ ToString school ++ ".247sports.com/Season/" ++ ToString year
    ++ "-Football/Commits".

Definition browser_headers : AxiosConfig :=
  {| headers := [("User-Agent",
                  "Mozilla/5.0 (Windows NT 6.1) AppleWebKit/537.36 (KHTML, like Gecko) Chrome/41.0.2228.0 Safari/537.36")];
     params := None |}.

(** The team rankings page of a year, and the configuration it is fetched
    with: the page asked for, the first unless the caller names one. *)
Definition team_rankings_url (year : Value) : string :=
  "http://247sports.com/Season/" ++ ToString year
    ++ "-Football/CompositeTeamRankings".

Definition team_rankings_config (page : Value) : AxiosConfig :=
  {| headers := headers browser_headers;
     params := Some [("Page", match page with VUndefined => num 1 | _ => page end)] |}.

(** A commitments row that yields both a name and a rating. *)
Definition complete_row (html : Element) : bool :=
  negb (str_eqb (trim (find_text html ".ri-page__name-link")) "")
  && negb (str_eqb (trim (find_own_text html "span.score")) "").

(** [undefined] and [null], through which no property can be read. *)
Definition nullish (v : Value) : bool :=
  match v with
  | VUndefined | VNull => true
  | _ => false
  end.

(** [v[i]] where it can be read, [undefined] elsewhere. *)
Definition item (i : nat) (v : Value) : Value :=
  match index v i with
  | Returned x => x
  | Thrown _ => VUndefined
  end.

(** A game summary in which [header.competitions[0]] is there to read. *)
Definition has_first_competition (data : Value) : bool :=
  negb (nullish data)
  && negb (nullish (field "header" data))
  && negb (nullish (field "competitions" (field "header" data)))
  && negb (nullish (item 0 (field "competitions" (field "header" data)))).

(** A play-by-play page in which
    [gamepackageJSON.header.competitions[0]] is there to read. *)
Definition has_game_package (data : Value) : bool :=
  negb (nullish data)
  && has_first_competition (field "gamepackageJSON" data).

(** A schedule page in which [content] is there to read. *)
Definition has_content (data : Value) : bool :=
  negb (nullish data) && negb (nullish (field "content" data)).

(** The fields [getSummary] and [getPicks] both return. *)
Definition shared_summary_keys : list string :=
  ["id"; "gameInfo"; "leaders"; "header"; "teams"; "competitions";
   "winProbability"; "season"; "week"; "standings"].

(** An operation that sent one GET and was rejected with [e]. *)
Definition rejected_after_one_get {A} (m : Async A) (e : JsError) : Prop :=
  outcome m = Some (Thrown e) /\ exists url config, trace m = [AxiosGet url config].

(** The URL [getPlayerRankings] opens for Rivals. *)
Definition rivals_url (year : Value) : string :=
  "https://n.rivals.com/prospect_rankings/rivals250/" ++ ToString year.

(** No step of the browser session before the close fails, the evaluation
    of the scroll loop not within [firings] firings. *)
Definition steps_succeed (f : Puppeteer.Faults) (firings : nat) : Prop :=
  Puppeteer.launch_fault f = None /\
  Puppeteer.newPage_fault f = None /\
  Puppeteer.goto_fault f = None /\
  (forall m e, Puppeteer.evaluate_fault f = Some (m, e) -> (firings <= m)%nat) /\
  Puppeteer.content_fault f = None.

(** The scroll loop resolves at firing [n] before its evaluation rejects;
    and it is still running, unrejected, after [fuel] firings. *)
Definition scrolled (f : Puppeteer.Faults) (page : PageBehaviour) (fuel n : nat)
  : Prop :=
  Scroll.autoScroll page None fuel = Some n /\
  forall m e, Puppeteer.evaluate_fault f = Some (m, e) -> (n <= m)%nat.

Definition still_scrolling (f : Puppeteer.Faults) (page : PageBehaviour) (fuel : nat)
  : Prop :=
  Scroll.autoScroll page None fuel = None /\
  forall m e, Puppeteer.evaluate_fault f = Some (m, e) -> (fuel < m)%nat.

(** The errors the steps between the launch and the close fail with. *)
Definition session_faults (f : Puppeteer.Faults) : list JsError :=
  let some := fun (o : option JsError) =>
    match o with Some e => [e] | None => [] end in
  (some (Puppeteer.newPage_fault f) ++ some (Puppeteer.goto_fault f)
   ++ some (option_map snd (Puppeteer.evaluate_fault f))
   ++ some (Puppeteer.content_fault f))%list.

(** Text with no white space at either end: its first character, of one,
    two or three bytes, is not a white-space character, nor is its last. *)
Definition starts_with_white_space (s : string) : bool :=
  match s with
  | String a r =>
      is_white_space a
      || match r with
         | String b r2 =>
             is_white_space2 a b
             || match r2 with
                | String c _ => is_white_space3 a b c
                | EmptyString => false
                end
         | EmptyString => false
         end
  | EmptyString => false
  end.

Definition ends_with_white_space (s : string) : bool :=
  match rev_string s "" with
  | String a r =>
      is_white_space a
      || match r with
         | String b r2 =>
             is_white_space2 b a
             || match r2 with
                | String c _ => is_white_space3 c b a
                | EmptyString => false
                end
         | EmptyString => false
         end
  | EmptyString => false
  end.

Definition trimmed (s : string) : Prop :=
  starts_with_white_space s = false /\ ends_with_white_space s = false.

(** What a row of a 247 rankings page shows as weight: the whole number
    that the text after the first slash of its metrics starts with, 0
    where there is none; and as college: the title of its logo,
    "uncommitted" where it has none. *)
Definition shown_weight (html : Element) : Value :=
  match nth_error (split "/" (find_text html ".metrics")) 1 with
  | Some part =>
      match parseInt10 (VStr (trim part)) with
      | NaN => num 0
      | n => VNum n
      end
  | None => num 0
  end.

Definition shown_college (html : Element) : string :=
  match find_attr html ".img-link > img" "title" with
  | Some title => if str_eqb title "" then "uncommitted" else title
  | None => "uncommitted"
  end.

(** The ways a caller may write the number [n] of a month or a day:
    as a number, as its decimal text, as two digits of text. *)
Definition spellings (n : Z) : list Value :=
  [num n; VStr (Z_to_string n); VStr (two_digits n)].

(* ================================================================== *)
(** ** Pages, documents and responses used as examples *)
(* ================================================================== *)

(** A page that lazily appends content faster than the loop scrolls and
    never shows a table row. *)
Definition ever_growing : PageBehaviour :=
  fun k => {| rows_length := 0; scrollHeight := 100 * Z.of_nat k + 100 |}.

(** A page with nothing on it. *)
Definition static_empty : PageBehaviour :=
  fun _ => {| rows_length := 0; scrollHeight := 0 |}.

(** A page of fixed height 1000 whose table never reaches 250 rows. *)
Definition stalled : PageBehaviour :=
  fun _ => {| rows_length := 100; scrollHeight := 1000 |}.

(** Stand-ins for the two abstract library functions. *)
Definition literal_parseFloat : string -> Value :=
  fun s => if str_eqb s "" then VNum NaN else VFloat s.

Definition no_rows : Cheerio := fun _ => [].

(** A world without network: every GET is rejected, every page is empty. *)
Definition offline : World :=
  {| axios_get := fun _ _ => Thrown (Err "AxiosError" "Network Error");
     page_behaviour := fun _ => static_empty;
     page_content := fun _ _ => VStr "" |}.

(** A world in which every GET is answered with [data]. *)
Definition answering (data : Value) : World :=
  {| axios_get := fun _ _ => Returned data;
     page_behaviour := fun _ => static_empty;
     page_content := fun _ _ => data |}.

Fixpoint lookup_text (sel : string) (texts : list (string * string)) : string :=
  match texts with
  | [] => ""
  | (s, t) :: rest => if str_eqb sel s then t else lookup_text sel rest
  end.

(** An element given by the text under each selector; [marks] is the
    number of elements any counted selector matches. *)
Definition element (texts : list (string * string)) (marks : nat) : Element :=
  {| find_text := fun sel => lookup_text sel texts;
     find_length := fun _ => marks;
     find_attr := fun _ _ => None;
     find_first_text := fun sel => lookup_text sel texts;
     find_own_text := fun sel => lookup_text sel texts;
     find_find_length := fun _ _ => marks |}.

(** A document in which [selector] matches [rows] and nothing else matches. *)
Definition document (selector : string) (rows : list Element) : Cheerio :=
  fun sel => if str_eqb sel selector then rows else [].

(** Rows of a 247 rankings page: a player, and a decoration row carrying
    no player data. *)
Definition ranking_row (name score : string) : Element :=
  element [(".rankings-page__name-link", " " ++ name ++ " ");
           (".metrics", "6-2 / 210"); (".score", score);
           (".position", "QB"); ("span.meta", "Some High (City, ST)")] 4.

Definition decoration_row : Element := element [] 0.

(** A row of a committed player, whose weight has more digits than a
    double keeps. *)
Definition committed_row : Element :=
  {| find_text := fun sel => lookup_text sel [(".metrics", "6-2 / 9007199254740993 lbs")];
     find_length := fun _ => 5%nat;
     find_attr := fun sel attr =>
       if str_eqb sel ".img-link > img" && str_eqb attr "title"
       then Some "Texas" else None;
     find_first_text := fun _ => "";
     find_own_text := fun _ => "";
     find_find_length := fun _ _ => 0%nat |}.

Definition ten_ranking_rows : list Element :=
  [ decoration_row;
    ranking_row "A One" "0.9999"; ranking_row "B Two" "0.9990";
    ranking_row "C Three" "0.9981"; ranking_row "D Four" "0.9975";
    decoration_row;
    ranking_row "E Five" "0.9960"; ranking_row "F Six" "0.9951";
    ranking_row "G Seven" "0.9940"; ranking_row "H Eight" "0.9932" ].

Definition rankings_page : Cheerio := document selector_247 ten_ranking_rows.

(** Rows of a 247 commitments page. *)
Definition commit_row (name rating : string) : Element :=
  element [(".ri-page__name-link", name); ("span.score", rating);
           (".metrics", "6-2 / 210"); (".position", "WR")] 3.

Definition ten_commit_rows : list Element :=
  [ commit_row "" "";
    commit_row "A One" "0.9512"; commit_row "B Two" "0.9433";
    commit_row "C Three" "0.9321"; commit_row "D Four" "0.9210";
    commit_row "" "";
    commit_row "E Five" "0.9105"; commit_row "F Six" "0.9010";
    commit_row "G Seven" "0.8954"; commit_row "H Eight" "0.8876" ].

Definition commits_page : Cheerio := document ".ri-page__list-item" ten_commit_rows.

(** An On3 card. *)
Definition on3_card : Element :=
  element [("div.PlayerRankingItem_name__Xrs6_", "A One");
           ("span.PlayerRankingItem_height__zEWyC", "6-2");
           ("span.StarRating_overallRating__wz9dE", "98.50")] 5.

Definition on3_page : Cheerio :=
  document
    "section.PlayerRankings_playerRankings__7DK27 > div.PlayerRankingItem_playerRankingItem__P26jQ"
    [on3_card; on3_card].

(** A host on which some script has put a loaded document under [$]. *)
Definition host_with_dollar (dollar : Cheerio) : GlobalObject :=
  {| global_dollar := Some dollar; global_attributes := None |}.

(** An ESPN recruiting response with one athlete. *)
Definition espn_athlete : Value :=
  VObj [("athlete",
         VObj [("id", VStr "240113"); ("alternateId", VStr "4685721");
               ("fullName", VStr "A One");
               ("position", VObj [("abbreviation", VStr "QB")]);
               ("hometown", VObj [("city", VStr "Austin");
                                  ("stateAbbreviation", VStr "TX")]);
               ("height", num 74); ("weight", num 210)]);
        ("grade", VStr "92")].

Definition espn_response : Value :=
  VObj [("count", num 1); ("items", VArr [espn_athlete])].

(** A game summary response. *)
Definition summary_response : Value :=
  VObj [("header",
         VObj [("id", VStr "401256194");
               ("competitions", VArr [VObj [("competitors", VArr [VStr "home"; VStr "away"])]]);
               ("season", VObj [("year", num 2020)]);
               ("week", num 4)]);
        ("winprobability", VArr [VObj [("homeWinPercentage", VFloat "0.62")]]);
        ("pickcenter", VArr [VObj [("provider", VStr "consensus")]]);
        ("odds", VArr [])].

Definition html_page : Value := VStr "<html><body></body></html>".

(** The no-break space, the line separator and the byte-order mark. *)
Definition nbsp : string := String (ascii_of_nat 194) (String (ascii_of_nat 160) "").
Definition line_separator : string :=
  String (ascii_of_nat 226) (String (ascii_of_nat 128) (String (ascii_of_nat 168) "")).
Definition byte_order_mark : string :=
  String (ascii_of_nat 239) (String (ascii_of_nat 187) (String (ascii_of_nat 191) "")).

(** A loader that finds [page] in [html_page] and nothing in any other
    answer. *)
Definition loading (page : Cheerio) : Value -> Cheerio :=
  fun data =>
    match data with
    | VStr text => if str_eqb text "<html><body></body></html>" then page else no_rows
    | _ => no_rows
    end.

(** A play-by-play page. *)
Definition playbyplay_response : Value :=
  VObj [("gameId", VStr "401256194");
        ("gamepackageJSON",
         VObj [("header",
                VObj [("competitions",
                       VArr [VObj [("competitors", VArr [VStr "home"; VStr "away"])]]);
                      ("season", VObj [("year", num 2020)]);
                      ("week", num 4)]);
               ("drives", VObj [("previous", VArr [])])])].

(** A schedule page, and one whose [content] has no [schedule]. *)
Definition schedule_response : Value :=
  VObj [("content", VObj [("schedule", VObj [("20191116", VObj [])])])].

Definition schedule_without_games : Value :=
  VObj [("content", VObj [("calendar", VArr [])])].

(** A world whose pages keep growing ahead of the scrolling, and one
    whose pages are a thousand pixels high with a hundred rows. *)
Definition growing_world : World :=
  {| axios_get := fun _ _ => Returned html_page;
     page_behaviour := fun _ => ever_growing;
     page_content := fun _ _ => html_page |}.

Definition stalled_world : World :=
  {| axios_get := fun _ _ => Returned html_page;
     page_behaviour := fun _ => stalled;
     page_content := fun _ _ => html_page |}.

(** The navigation times out; the evaluation of the scroll loop times out
    after three minutes, 360 firings. *)
Definition goto_times_out : Puppeteer.Faults :=
  {| Puppeteer.launch_fault := None; Puppeteer.newPage_fault := None;
     Puppeteer.goto_fault :=
       Some (Err "TimeoutError" "Navigation timeout of 30000 ms exceeded");
     Puppeteer.evaluate_fault := None; Puppeteer.content_fault := None;
     Puppeteer.close_fault := None |}.

Definition evaluate_times_out : Puppeteer.Faults :=
  {| Puppeteer.launch_fault := None; Puppeteer.newPage_fault := None;
     Puppeteer.goto_fault := None;
     Puppeteer.evaluate_fault :=
       Some (360%nat, Err "ProtocolError" "Runtime.callFunctionOn timed out");
     Puppeteer.content_fault := None; Puppeteer.close_fault := None |}.

(** A team rankings page: the header item and one team. *)
Definition team_item (school five four three : string) : RankingItem :=
  {| item_selection := element [(".rankings-page__name-link", school)] 0;
     find_nth_text := fun _ i => nth i [five; four; three] "" |}.

Definition team_items : list RankingItem :=
  [ team_item "" "" "" "";
    team_item "Alabama" "5: 7 " "4: 15 " "3: 3 " ].

(** A loader that finds [items] in [html_page] and nothing in any other
    answer. *)
Definition loading_items (items : list RankingItem)
  : Value -> string -> list RankingItem :=
  fun data sel =>
    match data with
    | VStr text =>
        if str_eqb text "<html><body></body></html>"
           && str_eqb sel ".rankings-page__list-item"
        then items else []
    | _ => []
    end.

(* ================================================================== *)
(** ** The scroll loop (claim C1) *)
(* ================================================================== *)

Section ScrollFacts.

Variable page : PageBehaviour.
Variable target : Z.

Lemma timer_callback_resolves (view : PageView) (st : LoopState) :
  timer_callback target view st = inr tt <->
  (target <= rows_length view \/ maxAttempts <= attempts st).
Proof.
  unfold timer_callback.
  destruct (rows_length view >=? target) eqn:Hrows;
    destruct (attempts st >=? maxAttempts) eqn:Hatt; simpl;
    try (destruct (totalHeight st + distance >=? scrollHeight view));
    split; intros Hx; try reflexivity; try discriminate; try lia.
Qed.

Lemma timer_callback_continues (view : PageView) (st st' : LoopState) :
  timer_callback target view st = inl st' ->
  rows_length view < target /\ attempts st < maxAttempts /\
  totalHeight st' = totalHeight st + distance /\
  (attempts st' = attempts st + 1 /\ scrollHeight view <= totalHeight st + distance
   \/ attempts st' = attempts st /\ totalHeight st + distance < scrollHeight view).
Proof.
  unfold timer_callback.
  destruct (rows_length view >=? target) eqn:Hrows;
    destruct (attempts st >=? maxAttempts) eqn:Hatt; simpl; try discriminate.
  destruct (totalHeight st + distance >=? scrollHeight view) eqn:Hbottom;
    intros Heq; injection Heq as <-; simpl; repeat split; lia.
Qed.

(** Once resolved at firing [n], more fuel changes nothing. *)
Lemma interval_from_resolved_at (k : nat) (st : LoopState) :
  timer_callback target (page k) st = inr tt ->
  forall fuel, (0 < fuel)%nat -> interval_from page target fuel k st = Some k.
Proof.
  intros Hres [|fuel] Hfuel; [lia|]. simpl. now rewrite Hres.
Qed.

(** The heart of the bound: [m] counts the firings still possible. *)
Lemma interval_from_bounded (H : Z) (k0 : nat) :
  (forall k, scrollHeight (page k) <= H) ->
  H <= distance * Z.of_nat k0 ->
  forall (m k : nat) (st : LoopState),
    totalHeight st = distance * (Z.of_nat k - 1) ->
    0 <= attempts st <= maxAttempts ->
    Z.of_nat (Nat.max k k0) + maxAttempts - attempts st - Z.of_nat k <= Z.of_nat m ->
    exists n, (k <= n <= k + m)%nat /\
      forall fuel, (n - k < fuel)%nat ->
        interval_from page target fuel k st = Some n.
Proof.
  intros Hheight Hk0. unfold distance, maxAttempts in *.
  induction m as [|m IH]; intros k st Htotal Hatt Hrem.
  - exists k. split; [lia|]. intros fuel Hfuel.
    apply interval_from_resolved_at; [|lia].
    apply timer_callback_resolves. right. unfold maxAttempts. lia.
  - destruct (timer_callback target (page k) st) as [st'|[]] eqn:Hcb.
    + pose proof (timer_callback_continues _ _ _ Hcb) as Hgo.
      unfold distance, maxAttempts in Hgo.
      destruct Hgo as (Hrows & Hlt & Htot' & Hstep).
      destruct (IH (S k) st') as (n & Hn & Hrun).
      * rewrite Htot', Htotal. lia.
      * destruct Hstep as [[-> _]|[-> _]]; lia.
      * pose proof (Hheight k) as Hk.
        destruct Hstep as [[-> Hbot]|[-> Hbot]]; lia.
      * exists n. split; [lia|]. intros [|fuel] Hfuel; [lia|].
        simpl. rewrite Hcb. apply Hrun. lia.
    + exists k. split; [lia|]. intros fuel Hfuel.
      apply interval_from_resolved_at; [assumption|lia].
Qed.

(** Reaching the target row count at some firing ends the loop there at
    the latest. *)
Lemma interval_from_reaches_target (k : nat) :
  target <= rows_length (page k) ->
  forall (m j : nat) (st : LoopState), (j + m = k)%nat ->
    exists n, (j <= n <= k)%nat /\
      forall fuel, (n - j < fuel)%nat ->
        interval_from page target fuel j st = Some n.
Proof.
  intros Hrows. induction m as [|m IH]; intros j st Hj.
  - exists k. split; [lia|]. intros fuel Hfuel.
    replace j with k by lia.
    apply interval_from_resolved_at; [|lia].
    apply timer_callback_resolves. now left.
  - destruct (timer_callback target (page j) st) as [st'|[]] eqn:Hcb.
    + destruct (IH (S j) st') as (n & Hn & Hrun); [lia|].
      exists n. split; [lia|]. intros [|fuel] Hfuel; [lia|].
      simpl. rewrite Hcb. apply Hrun. lia.
    + exists j. split; [lia|]. intros fuel Hfuel.
      apply interval_from_resolved_at; [assumption|lia].
Qed.

End ScrollFacts.

Lemma ever_growing_pending (fuel k : nat) (st : LoopState) :
  totalHeight st = distance * (Z.of_nat k - 1) -> attempts st = 0 ->
  interval_from ever_growing defaultTargetRowCount fuel k st = None.
Proof.
  revert k st. induction fuel as [|fuel IH]; intros k st Htotal Hatt; [reflexivity|].
  assert (Hcb : timer_callback defaultTargetRowCount (ever_growing k) st
                = inl {| totalHeight := totalHeight st + distance;
                         attempts := attempts st |}).
  { unfold timer_callback, ever_growing. cbn [rows_length scrollHeight].
    rewrite Hatt, Htotal. unfold defaultTargetRowCount, maxAttempts, distance.
    replace (0 >=? 250) with false by reflexivity.
    replace (0 >=? 20) with false by reflexivity. cbn [orb].
    destruct (100 * (Z.of_nat k - 1) + 100 >=? 100 * Z.of_nat k + 100) eqn:Hcmp;
      [lia|reflexivity]. }
  cbn [interval_from]. rewrite Hcb.
  apply IH; cbn [totalHeight attempts]; [rewrite Htotal; unfold distance; lia|assumption].
Qed.

(** As long as the loop runs, its [attempts] are the earlier firings at
    the bottom; so it resolves at the first firing that [stops_at]. *)
Lemma interval_from_first_stop (page : PageBehaviour) (target : Z) :
  forall (fuel k : nat) (st : LoopState) (n : nat),
    (1 <= k)%nat ->
    totalHeight st = distance * (Z.of_nat k - 1) ->
    attempts st = bottoms page (Nat.pred k) ->
    interval_from page target fuel k st = Some n ->
    (k <= n)%nat /\ stops_at page target n /\
    (forall j, (k <= j < n)%nat -> ~ stops_at page target j).
Proof.
  induction fuel as [|fuel IH]; intros k st n Hk Htotal Hatt Hrun;
    [discriminate Hrun|].
  cbn [interval_from] in Hrun.
  destruct (timer_callback target (page k) st) as [st'|[]] eqn:Hcb.
  - apply timer_callback_continues in Hcb as (Hrows & Hlt & Htot' & Hstep).
    unfold distance, maxAttempts in *.
    assert (Hatt' : attempts st' = bottoms page (Nat.pred (S k))).
    { cbn [Nat.pred]. destruct k as [|k']; [lia|].
      cbn [bottoms Nat.pred] in *.
      destruct (Z.leb_spec (scrollHeight (page (S k'))) (100 * Z.of_nat (S k')));
        destruct Hstep as [[-> Hyes]|[-> Hno]]; lia. }
    destruct (IH (S k) st' n) as (Hn & Hstop & Hfirst); try assumption; try lia.
    split; [lia|]. split; [assumption|].
    intros j Hj [Hfull|Hgive].
    + destruct (Nat.eq_dec j k) as [->|Hneq]; [lia|].
      apply (Hfirst j); [lia|now left].
    + destruct (Nat.eq_dec j k) as [->|Hneq]; [lia|].
      apply (Hfirst j); [lia|now right].
  - injection Hrun as <-. apply timer_callback_resolves in Hcb.
    unfold maxAttempts in Hcb. split; [lia|]. split.
    + unfold stops_at. destruct Hcb as [Hfull|Hgive]; [now left|right; lia].
    + intros j Hj. lia.
Qed.

(** C1, as amended.  On every page whose scrollable height never exceeds
    [H], [autoScroll] resolves: at some firing [n] of its 500ms interval
    with [n <= max(1, ceil(H/100)) + 20], hence within 500ms times that
    many firings, and no later than the first firing at which the page
    shows the target number of rows (250 unless the caller gives one).
    The firing at which it resolves is the first to find the target
    number of rows shown or twenty earlier firings at the bottom, that
    is, with the distance scrolled having reached the page's height. *)
Theorem autoScroll_stops_when_height_bounded
    (page : PageBehaviour) (targetRowCount : option Z) (H : Z)
    (Hheight : forall k, scrollHeight (page k) <= H) :
  exists n,
    (1 <= n <= firings_bound H)%nat /\
    (forall fuel, (n <= fuel)%nat -> autoScroll page targetRowCount fuel = Some n) /\
    elapsed_ms n <= interval_ms * Z.of_nat (firings_bound H) /\
    (forall k, (1 <= k)%nat ->
       match targetRowCount with Some t => t | None => 250 end
         <= rows_length (page k) -> (n <= k)%nat) /\
    stops_at page (match targetRowCount with Some t => t | None => 250 end) n /\
    (forall j, (1 <= j < n)%nat ->
       ~ stops_at page (match targetRowCount with Some t => t | None => 250 end) j).
Proof.
  set (target := match targetRowCount with Some t => t | None => 250 end).
  set (k0 := Z.to_nat ((H + 99) / 100)).
  assert (Hk0 : H <= distance * Z.of_nat k0).
  { unfold distance, k0. destruct (Z_le_gt_dec H 0) as [Hneg|Hpos].
    - lia.
    - rewrite Z2Nat.id by (apply Z.div_pos; lia).
      pose proof (Z.mul_div_le (H + 99) 100 ltac:(lia)).
      pose proof (Z.mod_pos_bound (H + 99) 100 ltac:(lia)).
      pose proof (Z.div_mod (H + 99) 100 ltac:(lia)). lia. }
  destruct (interval_from_bounded page target H k0 Hheight Hk0
              (Nat.max 1 k0 + 20 - 1) 1%nat initial)
    as (n & Hn & Hrun).
  - reflexivity.
  - simpl. unfold maxAttempts. lia.
  - simpl attempts. unfold maxAttempts. lia.
  - exists n. fold k0 in Hn. unfold firings_bound. fold k0.
    assert (Hauto : forall fuel, (n <= fuel)%nat ->
                      autoScroll page targetRowCount fuel = Some n).
    { intros fuel Hfuel. unfold autoScroll. apply Hrun. lia. }
    assert (Hfirst : (1 <= n)%nat /\ stops_at page target n /\
                     (forall j, (1 <= j < n)%nat -> ~ stops_at page target j)).
    { apply (interval_from_first_stop page target n 1%nat initial n);
        try reflexivity; try lia.
      apply Hrun. lia. }
    destruct Hfirst as (_ & Hstop & Hbefore).
    split; [lia|]. split; [assumption|].
    split; [unfold elapsed_ms, interval_ms; lia|].
    split; [|split; assumption].
    intros k Hk Hrows.
    destruct (interval_from_reaches_target page target k Hrows (k - 1) 1%nat initial)
      as (n' & Hn' & Hrun'); [lia|].
    specialize (Hrun (n + n')%nat ltac:(lia)).
    specialize (Hrun' (n + n')%nat ltac:(lia)).
    unfold target, defaultTargetRowCount in *.
    rewrite Hrun in Hrun'. injection Hrun' as ->. lia.
Qed.

Lemma autoScroll_stops_when_height_bounded_witness :
  exists n,
    (1 <= n <= firings_bound 1000)%nat /\
    (forall fuel, (n <= fuel)%nat -> autoScroll stalled None fuel = Some n) /\
    elapsed_ms n <= interval_ms * Z.of_nat (firings_bound 1000) /\
    (forall k, (1 <= k)%nat -> 250 <= rows_length (stalled k) -> (n <= k)%nat) /\
    stops_at stalled 250 n /\
    (forall j, (1 <= j < n)%nat -> ~ stops_at stalled 250 j).
Proof.
  apply (autoScroll_stops_when_height_bounded stalled None 1000).
  intros k. simpl. lia.
Defined.

(** The bound is met: a stalled page of height 1000 keeps the loop going
    for 30 firings, an empty page for 21. *)
Example autoScroll_stalled : autoScroll stalled None 40 = Some 30%nat.
Proof. reflexivity. Qed.

Example autoScroll_static_empty : autoScroll static_empty None 40 = Some 21%nat.
Proof. reflexivity. Qed.

(** C1 as stated does not hold: on a page that keeps growing ahead of the
    scrolling and shows no rows, no attempt is ever counted and the loop
    never resolves; and even on an empty page it takes 21 firings, more
    than 20 intervals. *)
Lemma autoScroll_not_always_terminating :
  ~ (exists fuel n, autoScroll ever_growing None fuel = Some n) /\
  autoScroll static_empty None 21 = Some 21%nat /\
  maxAttempts * interval_ms < elapsed_ms 21.
Proof.
  split; [|split; reflexivity].
  intros (fuel & n & Hrun). unfold autoScroll in Hrun.
  rewrite ever_growing_pending in Hrun; [discriminate|reflexivity|reflexivity].
Qed.

(* ================================================================== *)
(** ** Unknown ranking services (claim C2) *)
(* ================================================================== *)

Lemma str_eqb_neq (a b : string) : a <> b -> str_eqb a b = false.
Proof. intros Hneq. unfold str_eqb. now apply String.eqb_neq. Qed.

Lemma rankings_target_unrecognized
    (year : Value) (page : Z) (group position state : Value) (service : string) :
  ~ In service recognized ->
  rankings_target year page group position state service
  = Thrown (Error "Invalid rankings type").
Proof.
  intros Hout. unfold rankings_target, recognized in *. simpl in Hout.
  rewrite !str_eqb_neq; [reflexivity| |..]; intros ->; apply Hout; tauto.
Qed.

(** C2.  Given a service identifier outside the recognized six,
    [getPlayerRankings] throws [Error("Invalid rankings type")] and the
    trace of what it did to the outside world is empty: no GET was sent,
    no browser was launched. *)
Theorem getPlayerRankings_rejects_unknown_service
    (parseFloat : string -> Value) (cheerio_load : Value -> Cheerio)
    (g : GlobalObject) (w : World) (fuel : nat)
    (year : Value) (page : option Z) (group position state : Value)
    (service : string) :
  ~ In service recognized ->
  getPlayerRankings parseFloat cheerio_load g w fuel
    year page group position state (Some service)
  = ([], Some (Thrown (Error "Invalid rankings type"))).
Proof.
  intros Hout. unfold getPlayerRankings.
  rewrite rankings_target_unrecognized by assumption. reflexivity.
Qed.

Lemma getPlayerRankings_rejects_unknown_service_witness :
  getPlayerRankings literal_parseFloat (fun _ => no_rows) node_global offline 100
    (num 2021) (Some 1) VUndefined VUndefined VUndefined (Some "Yahoo")
  = ([], Some (Thrown (Error "Invalid rankings type"))).
Proof.
  apply getPlayerRankings_rejects_unknown_service.
  simpl. intros [H|[H|[H|[H|[H|[H|[]]]]]]]; discriminate H.
Defined.

(** For comparison, a recognized identifier does reach the network. *)
Example getPlayerRankings_known_service_fetches :
  trace (getPlayerRankings literal_parseFloat (fun _ => no_rows) node_global offline 100
           (num 2021) None VUndefined VUndefined VUndefined (Some "On3"))
  = [AxiosGet "https://www.on3.com/db/rankings/player/football/2021/"
       {| headers := [user_agent]; params := None |}].
Proof. reflexivity. Qed.

(* ================================================================== *)
(** ** Traces of the operations *)
(* ================================================================== *)

Lemma trace_emit_then {A} (e : Event) (k : unit -> Async A) :
  trace (_ <~ emit e ;; k tt) = e :: trace (k tt).
Proof. unfold bindA, emit, trace. destruct (k tt) as [tr r]. reflexivity. Qed.

Lemma trace_liftC_then_liftC {A B} (c : Completion A) (f : A -> Completion B) :
  trace (x <~ liftC c ;; liftC (f x)) = [].
Proof. destruct c; reflexivity. Qed.

Lemma trace_liftC {A} (c : Completion A) : trace (liftC c) = [].
Proof. reflexivity. Qed.

(** A plain-fetch operation: one GET, then pure extraction. *)
Lemma trace_single_get {A B} (url : string) (config : AxiosConfig)
    (c : Completion A) (f : A -> Completion B) :
  trace (_ <~ emit (AxiosGet url config) ;; x <~ liftC c ;; liftC (f x))
  = [AxiosGet url config].
Proof.
  rewrite (trace_emit_then (AxiosGet url config)
             (fun _ => x <~ liftC c ;; liftC (f x))).
  now rewrite trace_liftC_then_liftC.
Qed.

Section Requests.

Variable parseFloat : string -> Value.
Variable cheerio_load : Value -> Cheerio.
Variable g : GlobalObject.
Variable w : World.
Variable fuel : nat.

(** The trace of [getPlayerRankings] for a vendor fetched by GET. *)
Lemma trace_rankings_get
    (year : Value) (page : option Z) (group position state : Value)
    (service : option string) (url : string)
    (ps : option (list (string * Value))) :
  let service' := match service with Some s => s | None => "247Composite" end in
  rankings_target year (match page with Some p => p | None => 1 end)
    (default_to (VStr "HighSchool") group) (default_to VNull position)
    (default_to VNull state) service' = Returned (url, ps) ->
  str_eqb (toLowerCase service') "rivals" = false ->
  trace (getPlayerRankings parseFloat cheerio_load g w fuel
           year page group position state service)
  = [AxiosGet url (rankings_config ps)].
Proof.
  intros service' Htarget Hplain.
  unfold getPlayerRankings. fold service'. rewrite Htarget.
  unfold liftC at 1. unfold bindA at 1. cbn [app].
  unfold fetchRankingsData. rewrite Hplain.
  destruct (axios_get w url (rankings_config ps)) eqn:Hget; reflexivity.
Qed.

End Requests.

(* ================================================================== *)
(** ** Query parameters by vendor (claim C6) *)
(* ================================================================== *)

(** C6, as amended.  [getPlayerRankings] sends no query parameters for
    Rivals (its page is opened in the browser by URL alone), and none for
    On3 and On3Composite either, whose GET carries only the headers; for
    247Composite and 247 the GET carries [InstitutionGroup], [Page],
    [Position] and [State], for ESPN [lang] and [region], the page number
    being part of the URL. *)
Theorem rankings_requests_by_vendor
    (parseFloat : string -> Value) (cheerio_load : Value -> Cheerio)
    (g : GlobalObject) (w : World) (fuel : nat)
    (year : Value) (page : Z) (group position state : Value) :
  let run := fun service =>
    trace (getPlayerRankings parseFloat cheerio_load g w fuel
             year (Some page) group position state (Some service)) in
  let config := fun q => {| headers := [user_agent]; params := q |} in
  let query := Some [("InstitutionGroup", default_to (VStr "HighSchool") group);
                     ("Page", num page);
                     ("Position", default_to VNull position);
                     ("State", default_to VNull state)] in
  run "247Composite"
    = [AxiosGet ("http://247sports.com/Season/" ++ ToString year
                   ++ "-Football/CompositeRecruitRankings") (config query)] /\
  run "247"
    = [AxiosGet ("http://247sports.com/Season/" ++ ToString year
                   ++ "-Football/recruitrankings") (config query)] /\
  run "ESPN"
    = [AxiosGet (espn_url year page)
         (config (Some [("lang", VStr "en"); ("region", VStr "us")]))] /\
  run "On3"
    = [AxiosGet ("https://www.on3.com/db/rankings/player/football/"
                   ++ ToString year ++ "/") (config None)] /\
  run "On3Composite"
    = [AxiosGet ("https://www.on3.com/db/rankings/industry-player/football/"
                   ++ ToString year ++ "/") (config None)] /\
  exists rest,
    run "Rivals"
      = PuppeteerLaunch :: BrowserNewPage
          :: PageGoto ("https://n.rivals.com/prospect_rankings/rivals250/"
                         ++ ToString year) :: rest /\
    forallb (fun e => negb (is_AxiosGet e)) rest = true.
Proof.
  intros run config query. unfold run.
  repeat split;
    try (erewrite trace_rankings_get; cycle 1;
         [reflexivity | reflexivity | reflexivity]).
  unfold getPlayerRankings, liftC, bindA at 1. cbn -[autoScroll ToString].
  unfold fetchRankingsData. cbn -[autoScroll ToString].
  destruct (autoScroll _ None fuel) as [n|].
  - eexists. split; reflexivity.
  - eexists. split; reflexivity.
Qed.

(** C6 as stated does not hold: On3 is a recognized vendor other than
    Rivals, and its request has no query parameters. *)
Lemma on3_request_has_no_query :
  ~ (forall service, In service recognized -> service <> "Rivals" ->
       exists url config query,
         trace (getPlayerRankings literal_parseFloat (fun _ => no_rows)
                  node_global offline 0
                  (num 2021) (Some 1) VUndefined VUndefined VUndefined
                  (Some service))
         = [AxiosGet url config] /\
         params config = Some query).
Proof.
  intros Hall.
  destruct (Hall "On3") as (url & config & query & Htrace & Hparams).
  - simpl. tauto.
  - discriminate.
  - injection Htrace as _ <-. discriminate Hparams.
Qed.

(* ================================================================== *)
(** ** Defaults (claim C7) *)
(* ================================================================== *)

Lemma default_to_supplied (d v : Value) : v <> VUndefined -> default_to d v = v.
Proof. destruct v; intros Hv; try reflexivity. now elim Hv. Qed.

Lemma requested_rankings
    (parseFloat : string -> Value) (cheerio_load : Value -> Cheerio)
    (g : GlobalObject) (w : World) (fuel : nat)
    (year : Value) (page : option Z) (group : Value) (service : option string)
    (k : string) :
  In service [None; Some "247Composite"; Some "247"] ->
  requested k (getPlayerRankings parseFloat cheerio_load g w fuel
                 year page group VUndefined VUndefined service)
  = assoc k [("InstitutionGroup", default_to (VStr "HighSchool") group);
             ("Page", num (match page with Some p => p | None => 1 end));
             ("Position", VNull); ("State", VNull)].
Proof.
  intros [<-|[<-|[<-|[]]]]; unfold requested;
    (erewrite trace_rankings_get; cycle 1;
     [reflexivity | reflexivity | reflexivity]).
Qed.

Lemma request_url_espn
    (parseFloat : string -> Value) (cheerio_load : Value -> Cheerio)
    (g : GlobalObject) (w : World) (fuel : nat)
    (year : Value) (page : option Z) (group : Value) :
  request_url (getPlayerRankings parseFloat cheerio_load g w fuel
                 year page group VUndefined VUndefined (Some "ESPN"))
  = Some (espn_url year (match page with Some p => p | None => 1 end)).
Proof.
  unfold request_url.
  erewrite trace_rankings_get; cycle 1; [reflexivity | reflexivity | reflexivity].
Qed.

Lemma requested_schedule (w : World) (year month day groups seasontype : Value)
    (k : string) :
  requested k (getSchedule w year month day groups seasontype)
  = assoc k (schedule_params year month day groups seasontype).
Proof.
  unfold requested, getSchedule.
  rewrite (trace_single_get schedule_url _ _
             (fun data => content <- get data "content" ;; get content "schedule")).
  reflexivity.
Qed.

Lemma requested_scoreboard (w : World)
    (year month day groups seasontype limit : Value) (k : string) :
  requested k (getScoreboard w year month day groups seasontype limit)
  = assoc k (scoreboard_params year month day groups seasontype limit).
Proof.
  unfold requested, getScoreboard.
  rewrite (trace_emit_then (AxiosGet scoreboard_url _)
             (fun _ => liftC (axios_get w scoreboard_url _))).
  reflexivity.
Qed.

(** C7.  With the option left out, the request carries the default:
    [Page = 1] and [InstitutionGroup = "HighSchool"] for the 247 requests
    of [getPlayerRankings] and [page=1] in the URL of its ESPN request,
    [groups = 80] and [seasontype = 2] for [getSchedule] and
    [getScoreboard], [limit = 300] for [getScoreboard]; with the option
    given, the request carries the caller's value instead. *)
Theorem defaults_apply_unless_overridden
    (parseFloat : string -> Value) (cheerio_load : Value -> Cheerio)
    (g : GlobalObject) (w : World) (fuel : nat)
    (year month day : Value) (service : option string)
    (page : Z) (group groups seasontype limit : Value) :
  In service [None; Some "247Composite"; Some "247"] ->
  group <> VUndefined -> groups <> VUndefined ->
  seasontype <> VUndefined -> limit <> VUndefined ->
  let rankings := fun page group service =>
    getPlayerRankings parseFloat cheerio_load g w fuel
      year page group VUndefined VUndefined service in
  let omitted := VUndefined in
  (requested "Page" (rankings None omitted service) = Some (num 1) /\
   requested "InstitutionGroup" (rankings None omitted service)
     = Some (VStr "HighSchool") /\
   request_url (rankings None omitted (Some "ESPN")) = Some (espn_url year 1) /\
   requested "groups" (getSchedule w year month day omitted omitted) = Some (num 80) /\
   requested "seasontype" (getSchedule w year month day omitted omitted) = Some (num 2) /\
   requested "groups" (getScoreboard w year month day omitted omitted omitted)
     = Some (num 80) /\
   requested "seasontype" (getScoreboard w year month day omitted omitted omitted)
     = Some (num 2) /\
   requested "limit" (getScoreboard w year month day omitted omitted omitted)
     = Some (num 300))
  /\
  (requested "Page" (rankings (Some page) group service) = Some (num page) /\
   requested "InstitutionGroup" (rankings (Some page) group service) = Some group /\
   request_url (rankings (Some page) group (Some "ESPN")) = Some (espn_url year page) /\
   requested "groups" (getSchedule w year month day groups seasontype) = Some groups /\
   requested "seasontype" (getSchedule w year month day groups seasontype)
     = Some seasontype /\
   requested "groups" (getScoreboard w year month day groups seasontype limit)
     = Some groups /\
   requested "seasontype" (getScoreboard w year month day groups seasontype limit)
     = Some seasontype /\
   requested "limit" (getScoreboard w year month day groups seasontype limit)
     = Some limit).
Proof.
  intros Hservice Hgroup Hgroups Hseason Hlimit rankings omitted.
  unfold rankings, omitted.
  rewrite !requested_rankings by assumption.
  rewrite !request_url_espn, !requested_schedule, !requested_scoreboard.
  unfold schedule_params, scoreboard_params.
  rewrite !(default_to_supplied _ group), !(default_to_supplied _ groups),
    !(default_to_supplied _ seasontype), !(default_to_supplied _ limit)
    by assumption.
  repeat split; reflexivity.
Qed.

Lemma defaults_apply_unless_overridden_witness :
  let y := num 2019 in let m := num 11 in let d := num 16 in
  let rankings := fun page group service =>
    getPlayerRankings literal_parseFloat (fun _ => no_rows) node_global offline 0
      y page group VUndefined VUndefined service in
  let omitted := VUndefined in
  (requested "Page" (rankings None omitted (Some "247")) = Some (num 1) /\
   requested "InstitutionGroup" (rankings None omitted (Some "247"))
     = Some (VStr "HighSchool") /\
   request_url (rankings None omitted (Some "ESPN")) = Some (espn_url y 1) /\
   requested "groups" (getSchedule offline y m d omitted omitted) = Some (num 80) /\
   requested "seasontype" (getSchedule offline y m d omitted omitted) = Some (num 2) /\
   requested "groups" (getScoreboard offline y m d omitted omitted omitted)
     = Some (num 80) /\
   requested "seasontype" (getScoreboard offline y m d omitted omitted omitted)
     = Some (num 2) /\
   requested "limit" (getScoreboard offline y m d omitted omitted omitted)
     = Some (num 300))
  /\
  (requested "Page" (rankings (Some 3) (VStr "JuniorCollege") (Some "247"))
     = Some (num 3) /\
   requested "InstitutionGroup" (rankings (Some 3) (VStr "JuniorCollege") (Some "247"))
     = Some (VStr "JuniorCollege") /\
   request_url (rankings (Some 3) (VStr "JuniorCollege") (Some "ESPN"))
     = Some (espn_url y 3) /\
   requested "groups" (getSchedule offline y m d (num 81) (num 3)) = Some (num 81) /\
   requested "seasontype" (getSchedule offline y m d (num 81) (num 3)) = Some (num 3) /\
   requested "groups" (getScoreboard offline y m d (num 81) (num 3) (num 25))
     = Some (num 81) /\
   requested "seasontype" (getScoreboard offline y m d (num 81) (num 3) (num 25))
     = Some (num 3) /\
   requested "limit" (getScoreboard offline y m d (num 81) (num 3) (num 25))
     = Some (num 25)).
Proof.
  apply (defaults_apply_unless_overridden literal_parseFloat (fun _ => no_rows)
           node_global offline 0 (num 2019) (num 11) (num 16) (Some "247")
           3 (VStr "JuniorCollege") (num 81) (num 3) (num 25));
    try discriminate.
  simpl. tauto.
Defined.

(** The page number the ESPN request asks for when none is given. *)
Example espn_url_default_page :
  espn_url (num 2021) 1
  = "https://sports.core.api.espn.com/v2/sports/football/leagues/college-football/recruiting/2021/athletes?page=1".
Proof. reflexivity. Qed.

(* ================================================================== *)
(** ** The dates parameter (claim C3) *)
(* ================================================================== *)

Lemma Int_to_string_small (z : Z) :
  Z.abs z < 9007199254740992 -> Int_to_string z = Z_to_string z.
Proof.
  intros Hz. unfold Int_to_string.
  change (2 ^ 53) with 9007199254740992.
  destruct (Z.ltb_spec (Z.abs z) 9007199254740992); [reflexivity|lia].
Qed.

Lemma Z_to_string_four_digits (y : Z) :
  1000 <= y <= 9999 -> Z_to_string y = four_digits y.
Proof.
  intros Hy.
  assert (Hall : forallb (fun n => String.eqb (Z_to_string (Z.of_nat n))
                                     (four_digits (Z.of_nat n)))
                   (seq 1000 (Z.to_nat 9000)) = true) by (vm_compute; reflexivity).
  rewrite forallb_forall in Hall. specialize (Hall (Z.to_nat y)).
  rewrite Z2Nat.id in Hall by lia.
  apply String.eqb_eq, Hall, in_seq. lia.
Qed.

Lemma padded_two_digits (n : Z) : 0 <= n <= 99 -> padded (num n) = two_digits n.
Proof.
  intros Hn.
  assert (Hall : forallb (fun k => String.eqb (padded (num (Z.of_nat k)))
                                     (two_digits (Z.of_nat k)))
                   (seq 0 100) = true) by (vm_compute; reflexivity).
  rewrite forallb_forall in Hall. specialize (Hall (Z.to_nat n)).
  rewrite Z2Nat.id in Hall by lia.
  apply String.eqb_eq, Hall, in_seq. lia.
Qed.

Lemma dates_param_of_date (y m d : Z) :
  date_triple y m d ->
  dates_param (num y) (num m) (num d) = [("dates", VStr (yyyymmdd y m d))].
Proof.
  intros (Hy & Hm & Hd). unfold dates_param, yyyymmdd.
  assert (Ht : forall z, z <> 0 -> truthy (num z) = true).
  { intros z Hz. simpl. now apply negb_true_iff, Z.eqb_neq. }
  rewrite !Ht by lia. cbn [andb].
  rewrite !padded_two_digits by lia.
  change (ToString (num y)) with (Int_to_string y).
  rewrite Int_to_string_small by lia.
  now rewrite Z_to_string_four_digits.
Qed.

Lemma dates_param_absent (year month day : Value) :
  year = VUndefined \/ month = VUndefined \/ day = VUndefined ->
  dates_param year month day = [].
Proof.
  unfold dates_param. intros [H|[H|H]]; subst; cbn [truthy andb].
  - reflexivity.
  - now rewrite andb_false_r.
  - now rewrite andb_false_r.
Qed.

(** C3.  For a date (four-digit year, month, day) [getSchedule] and
    [getScoreboard] send [dates] as the eight characters YYYYMMDD, month
    and day padded with a zero below 10; when the year, the month or the
    day is left out, they send no [dates] parameter. *)
Theorem dates_parameter_is_yyyymmdd
    (w : World) (y m d : Z) (year month day : Value)
    (groups seasontype limit : Value) :
  date_triple y m d ->
  year = VUndefined \/ month = VUndefined \/ day = VUndefined ->
  (requested "dates" (getSchedule w (num y) (num m) (num d) groups seasontype)
     = Some (VStr (yyyymmdd y m d)) /\
   requested "dates" (getScoreboard w (num y) (num m) (num d) groups seasontype limit)
     = Some (VStr (yyyymmdd y m d)) /\
   String.length (yyyymmdd y m d) = 8%nat)
  /\
  (requested "dates" (getSchedule w year month day groups seasontype) = None /\
   requested "dates" (getScoreboard w year month day groups seasontype limit) = None).
Proof.
  intros Hdate Habsent.
  rewrite !requested_schedule, !requested_scoreboard.
  unfold schedule_params, scoreboard_params.
  rewrite (dates_param_of_date y m d Hdate), (dates_param_absent _ _ _ Habsent).
  repeat split; reflexivity.
Qed.

Lemma dates_parameter_is_yyyymmdd_witness :
  (requested "dates" (getSchedule offline (num 2019) (num 1) (num 5) VUndefined VUndefined)
     = Some (VStr (yyyymmdd 2019 1 5)) /\
   requested "dates"
     (getScoreboard offline (num 2019) (num 1) (num 5) VUndefined VUndefined VUndefined)
     = Some (VStr (yyyymmdd 2019 1 5)) /\
   String.length (yyyymmdd 2019 1 5) = 8%nat)
  /\
  (requested "dates" (getSchedule offline (num 2019) VUndefined (num 5) VUndefined VUndefined)
     = None /\
   requested "dates"
     (getScoreboard offline (num 2019) VUndefined (num 5) VUndefined VUndefined VUndefined)
     = None).
Proof.
  apply (dates_parameter_is_yyyymmdd offline 2019 1 5
           (num 2019) VUndefined (num 5) VUndefined VUndefined VUndefined).
  - unfold date_triple. lia.
  - right. left. reflexivity.
Defined.

(** The two dates the specification gives. *)
Example dates_2019_11_16 :
  dates_param (num 2019) (num 11) (num 16) = [("dates", VStr "20191116")].
Proof. reflexivity. Qed.

Example dates_2019_1_5 :
  dates_param (num 2019) (num 1) (num 5) = [("dates", VStr "20190105")].
Proof. reflexivity. Qed.

(** Month and day given as text are read by [parseInt] all the same. *)
Example dates_from_text :
  dates_param (VStr "2019") (VStr "01") (VStr "5") = [("dates", VStr "20190105")].
Proof. reflexivity. Qed.

(* ================================================================== *)
(** ** What getPlayerRankings returns after a GET *)
(* ================================================================== *)

Section RankingsOutcome.

Variable parseFloat : string -> Value.
Variable cheerio_load : Value -> Cheerio.
Variable g : GlobalObject.
Variable w : World.
Variable fuel : nat.

(** For a vendor fetched by GET the outcome is the rejection of the GET
    or what the extractor makes of the response. *)
Lemma outcome_rankings_get
    (year : Value) (page : option Z) (group position state : Value)
    (service : option string) (url : string)
    (ps : option (list (string * Value))) :
  let service' := match service with Some s => s | None => "247Composite" end in
  let page' := match page with Some p => p | None => 1 end in
  rankings_target year page'
    (default_to (VStr "HighSchool") group) (default_to VNull position)
    (default_to VNull state) service' = Returned (url, ps) ->
  str_eqb (toLowerCase service') "rivals" = false ->
  outcome (getPlayerRankings parseFloat cheerio_load g w fuel
             year page group position state service)
  = Some (data <- axios_get w url (rankings_config ps) ;;
          extract_rankings parseFloat cheerio_load g data page' service').
Proof.
  intros service' page' Htarget Hplain.
  unfold getPlayerRankings. fold service' page'. rewrite Htarget.
  unfold liftC at 1. unfold bindA at 1. cbn [app].
  unfold fetchRankingsData. rewrite Hplain.
  destruct (axios_get w url (rankings_config ps)) eqn:Hget; reflexivity.
Qed.

(** The HTML branches need the global [$]. *)
Lemma extract_rankings_html (data : Value) (page : Z) (service : string) :
  In service ["247Composite"; "247"; "Rivals"; "On3"; "On3Composite"] ->
  extract_rankings parseFloat cheerio_load g data page service
  = (dollar <- resolve "$" (global_dollar g) ;;
     Returned
       (if str_eqb service "247Composite" || str_eqb service "247"
        then players_247 parseFloat dollar page
        else if str_eqb service "Rivals" then players_rivals dollar
        else players_on3 dollar)).
Proof.
  intros [<-|[<-|[<-|[<-|[<-|[]]]]]]; reflexivity.
Qed.

Lemma extract_rankings_espn (data : Value) (page : Z) :
  extract_rankings parseFloat cheerio_load g data page "ESPN"
  = (allItems <- get data "items" ;;
     records <- iterate allItems ;;
     players_espn (global_attributes g) (1 + 25 * (page - 1)) records).
Proof. reflexivity. Qed.

End RankingsOutcome.

(* ================================================================== *)
(** ** The ESPN branch (claim C8) *)
(* ================================================================== *)

Lemma players_espn_unbound_attributes (rank : Z) (record : Value) (rest : list Value) :
  exists e,
    players_espn None rank (record :: rest) = Thrown e /\
    (forall v, read_position record = Returned v -> e = ReferenceError "attributes").
Proof.
  cbn [players_espn]. unfold read_position.
  destruct (get record "athlete") as [athlete|e1]; cbn [bindC].
  2: { eexists. split; [reflexivity|]. intros v Hv. discriminate Hv. }
  destruct (get athlete "position") as [pos|e2]; cbn [bindC].
  2: { eexists. split; [reflexivity|]. intros v Hv. discriminate Hv. }
  destruct (get pos "abbreviation") as [abbreviation|e3]; cbn [bindC].
  2: { eexists. split; [reflexivity|]. intros v Hv. discriminate Hv. }
  eexists. split; reflexivity.
Qed.

(** C8.  On a host whose global object has no [attributes] (the module
    declares none either), the ESPN branch of [getPlayerRankings] throws
    for every response whose [items] is a non-empty list: no record is
    returned.  When the first record has an
    [athlete.position.abbreviation] to read, the error is
    [ReferenceError: attributes is not defined]. *)
Theorem espn_branch_throws_on_nonempty_items
    (parseFloat : string -> Value) (cheerio_load : Value -> Cheerio)
    (g : GlobalObject) (w : World) (fuel : nat)
    (year : Value) (page : option Z) (group position state : Value)
    (data record : Value) (rest : list Value) :
  global_attributes g = None ->
  axios_get w
    (espn_url year (match page with Some p => p | None => 1 end))
    {| headers := [user_agent];
       params := Some [("lang", VStr "en"); ("region", VStr "us")] |}
  = Returned data ->
  get data "items" = Returned (VArr (record :: rest)) ->
  exists e,
    outcome (getPlayerRankings parseFloat cheerio_load g w fuel
               year page group position state (Some "ESPN"))
    = Some (Thrown e) /\
    (forall v, read_position record = Returned v -> e = ReferenceError "attributes").
Proof.
  intros Hglobal Hget Hitems.
  destruct (players_espn_unbound_attributes
              (1 + 25 * (match page with Some p => p | None => 1 end - 1)) record rest)
    as (e & Hthrown & Hwhich).
  exists e. split; [|assumption].
  erewrite outcome_rankings_get; cycle 1; [reflexivity | reflexivity |].
  unfold rankings_config. fold (espn_url year (match page with Some p => p | None => 1 end)).
  rewrite Hget. cbn [bindC].
  rewrite extract_rankings_espn, Hitems. cbn [bindC iterate].
  now rewrite Hglobal, Hthrown.
Qed.

Lemma espn_branch_throws_on_nonempty_items_witness :
  exists e,
    outcome (getPlayerRankings literal_parseFloat (fun _ => no_rows) node_global
               (answering espn_response) 0
               (num 2021) (Some 1) VUndefined VUndefined VUndefined (Some "ESPN"))
    = Some (Thrown e) /\
    (forall v, read_position espn_athlete = Returned v -> e = ReferenceError "attributes").
Proof.
  apply (espn_branch_throws_on_nonempty_items literal_parseFloat (fun _ => no_rows)
           node_global (answering espn_response) 0 (num 2021) (Some 1)
           VUndefined VUndefined VUndefined espn_response espn_athlete []).
  - reflexivity.
  - reflexivity.
  - reflexivity.
Defined.

(** An empty [items] list is the one ESPN response that goes through. *)
Example espn_branch_empty_items :
  outcome (getPlayerRankings literal_parseFloat (fun _ => no_rows) node_global
             (answering (VObj [("items", VArr [])])) 0
             (num 2021) (Some 1) VUndefined VUndefined VUndefined (Some "ESPN"))
  = Some (Returned []).
Proof. reflexivity. Qed.

(* ================================================================== *)
(** ** getPicks (claim C9) *)
(* ================================================================== *)

Lemma get_with_field_other (k k' : string) (v data : Value) :
  str_eqb k' k = false -> get (with_field k v data) k' = get data k'.
Proof.
  intros Hneq. destruct data; try reflexivity.
  unfold with_field, get. cbn [assoc]. unfold str_eqb in Hneq. now rewrite Hneq.
Qed.

(** The record does not depend on the response's [pickcenter]. *)
Lemma picks_record_ignores_pickcenter (v data : Value) :
  picks_record (with_field "pickcenter" v data) = picks_record data.
Proof.
  unfold picks_record.
  now rewrite !(get_with_field_other "pickcenter") by reflexivity.
Qed.

Lemma picks_record_fields (data r : Value) :
  picks_record data = Returned r ->
  get data "winprobability" = Returned (field "winProbability" r) /\
  field "pickcenter" r = field "winProbability" r.
Proof.
  unfold picks_record. intros Hr.
  repeat match type of Hr with
         | bindC ?c _ = _ =>
             let x := fresh "x" in
             destruct c as [x|] eqn:?; cbn [bindC] in Hr; [|discriminate Hr]
         end.
  injection Hr as <-. split; reflexivity.
Qed.

(** C9.  Whatever the summary endpoint answers, a record returned by
    [getPicks] has [pickcenter] equal to [winProbability]: both are the
    response's [winprobability], and replacing the response's own
    [pickcenter] by anything leaves the record as it is. *)
Theorem getPicks_pickcenter_is_winProbability (w : World) (id r : Value) :
  outcome (getPicks w id) = Some (Returned r) ->
  exists data,
    axios_get w summary_url {| headers := []; params := Some [("event", id)] |}
      = Returned data /\
    get data "winprobability" = Returned (field "pickcenter" r) /\
    field "pickcenter" r = field "winProbability" r /\
    (forall v, picks_record (with_field "pickcenter" v data) = Returned r).
Proof.
  unfold getPicks. intros Hout.
  destruct (axios_get w summary_url _) as [data|e] eqn:Hget; [|discriminate Hout].
  assert (Hrec : picks_record data = Returned r).
  { unfold outcome, bindA, emit, liftC in Hout. cbn in Hout.
    destruct (picks_record data); now inversion Hout. }
  destruct (picks_record_fields data r Hrec) as (Hwin & Heq).
  exists data. repeat split.
  - now rewrite Heq.
  - assumption.
  - intros v. now rewrite picks_record_ignores_pickcenter.
Qed.

Example getPicks_summary_response :
  outcome (getPicks (answering summary_response) (num 401256194))
  = Some (Returned (VObj [
      ("id", num 401256194);
      ("gameInfo", VUndefined);
      ("leaders", VUndefined);
      ("header", field "header" summary_response);
      ("teams", VArr [VStr "home"; VStr "away"]);
      ("competitions", VArr [VObj [("competitors", VArr [VStr "home"; VStr "away"])]]);
      ("winProbability", VArr [VObj [("homeWinPercentage", VFloat "0.62")]]);
      ("pickcenter", VArr [VObj [("homeWinPercentage", VFloat "0.62")]]);
      ("againstTheSpread", VUndefined);
      ("odds", VArr []);
      ("season", VObj [("year", num 2020)]);
      ("week", num 4);
      ("standings", VUndefined) ])).
Proof. reflexivity. Qed.

Lemma getPicks_pickcenter_is_winProbability_witness :
  exists data,
    axios_get (answering summary_response) summary_url
      {| headers := []; params := Some [("event", num 401256194)] |}
      = Returned data /\
    get data "winprobability"
      = Returned (VArr [VObj [("homeWinPercentage", VFloat "0.62")]]) /\
    VArr [VObj [("homeWinPercentage", VFloat "0.62")]]
      = VArr [VObj [("homeWinPercentage", VFloat "0.62")]] /\
    (forall v, picks_record (with_field "pickcenter" v data)
               = picks_record summary_response).
Proof.
  exact (getPicks_pickcenter_is_winProbability (answering summary_response)
           (num 401256194) _ getPicks_summary_response).
Defined.

(* ================================================================== *)
(** ** On3 weights (claim C10) *)
(* ================================================================== *)

Lemma players_on3_weight (dollar : Cheerio) (player : Value) :
  In player (players_on3 dollar) -> field "weight" player = num 0.
Proof.
  unfold players_on3. intros Hin.
  apply in_map_iff in Hin as (html & <- & _). reflexivity.
Qed.

(** C10.  For On3 and On3Composite, every record in a list returned by
    [getPlayerRankings] has [weight] 0, whatever the page holds. *)
Theorem on3_weight_is_zero
    (parseFloat : string -> Value) (cheerio_load : Value -> Cheerio)
    (g : GlobalObject) (w : World) (fuel : nat)
    (year : Value) (page : option Z) (group position state : Value)
    (service : string) (players : list Value) (player : Value) :
  service = "On3" \/ service = "On3Composite" ->
  outcome (getPlayerRankings parseFloat cheerio_load g w fuel
             year page group position state (Some service))
  = Some (Returned players) ->
  In player players ->
  field "weight" player = num 0.
Proof.
  intros Hservice Hout Hin.
  assert (Hextract : exists data,
            extract_rankings parseFloat cheerio_load g data
              (match page with Some p => p | None => 1 end) service
            = Returned players).
  { destruct Hservice as [-> | ->];
      (erewrite outcome_rankings_get in Hout; cycle 1;
       [reflexivity | reflexivity |]);
      destruct (axios_get w _ _) as [data|e]; cbn [bindC] in Hout;
      try discriminate Hout; exists data; now injection Hout. }
  destruct Hextract as (data & Hextract).
  rewrite extract_rankings_html in Hextract
    by (simpl; destruct Hservice as [-> | ->]; tauto).
  destruct (global_dollar g) as [dollar|]; cbn [resolve bindC] in Hextract;
    [|discriminate Hextract].
  apply (players_on3_weight dollar).
  destruct Hservice as [-> | ->]; cbn in Hextract;
    injection Hextract as <-; assumption.
Qed.

Lemma on3_weight_is_zero_witness :
  field "weight" (player_on3 on3_card) = num 0.
Proof.
  apply (on3_weight_is_zero literal_parseFloat (fun _ => no_rows)
           (host_with_dollar on3_page) (answering (VStr "<html></html>")) 0
           (num 2024) None VUndefined VUndefined VUndefined
           "On3" [player_on3 on3_card; player_on3 on3_card] (player_on3 on3_card)).
  - left. reflexivity.
  - reflexivity.
  - simpl. left. reflexivity.
Defined.

(* ================================================================== *)
(** ** Rank backfill (claim C4) *)
(* ================================================================== *)

Lemma each_ranked_nth (callback : Z -> Element -> Value) (rows : list Element) :
  forall (rank : Z) (i : nat) (player : Value),
    nth_error (each_ranked callback rank rows) i = Some player ->
    exists html, nth_error rows i = Some html /\
                 player = callback (rank + Z.of_nat i) html.
Proof.
  induction rows as [|html rows IH]; intros rank i player Hnth.
  - destruct i; discriminate Hnth.
  - destruct i as [|i]; cbn [each_ranked nth_error] in *.
    + injection Hnth as <-. exists html. split; [reflexivity|]. f_equal. lia.
    + destruct (IH _ _ _ Hnth) as (html' & Hrow & ->).
      exists html'. split; [assumption|]. f_equal. lia.
Qed.

Lemma each_ranked_length (callback : Z -> Element -> Value) (rows : list Element) :
  forall rank, List.length (each_ranked callback rank rows) = List.length rows.
Proof.
  induction rows as [|html rows IH]; intros rank; cbn [each_ranked List.length];
    [reflexivity|now rewrite IH].
Qed.

(** The loop of the 247 branch, given a document: one record per matched
    row, none left out. *)
Lemma players_247_one_per_row (parseFloat : string -> Value) (dollar : Cheerio)
    (page : Z) :
  List.length (players_247 parseFloat dollar page)
  = List.length (dollar selector_247).
Proof. unfold players_247. apply each_ranked_length. Qed.

(** The [i]-th record (from 0) is ranked [1 + 50 * (page - 1) + i]. *)
Lemma players_247_ranking (parseFloat : string -> Value) (dollar : Cheerio)
    (page : Z) (i : nat) (player : Value) :
  nth_error (players_247 parseFloat dollar page) i = Some player ->
  field "ranking" player = num (1 + 50 * (page - 1) + Z.of_nat i).
Proof.
  unfold players_247. intros Hnth.
  apply each_ranked_nth in Hnth as (html & _ & ->). reflexivity.
Qed.

(** Where the global object has no [$], the branches that scrape HTML by
    GET throw as soon as they reach for the document. *)
Lemma html_branches_need_global_dollar
    (parseFloat : string -> Value) (cheerio_load : Value -> Cheerio)
    (g : GlobalObject) (w : World) (fuel : nat)
    (year : Value) (page : option Z) (group position state : Value)
    (service : string) (data : Value) :
  In service ["247Composite"; "247"; "On3"; "On3Composite"] ->
  global_dollar g = None ->
  (forall url config, axios_get w url config = Returned data) ->
  outcome (getPlayerRankings parseFloat cheerio_load g w fuel
             year page group position state (Some service))
  = Some (Thrown (ReferenceError "$")).
Proof.
  intros Hservice Hglobal Hget.
  assert (Hhtml : In service ["247Composite"; "247"; "Rivals"; "On3"; "On3Composite"])
    by (simpl in *; tauto).
  destruct Hservice as [<-|[<-|[<-|[<-|[]]]]];
    (erewrite outcome_rankings_get; cycle 1; [reflexivity | reflexivity |]);
    rewrite Hget; cbn [bindC];
    rewrite extract_rankings_html by assumption;
    rewrite Hglobal; reflexivity.
Qed.

(** C4, on the input where the code departs from it.  On Node, page 2 of
    the 247 rankings, fetched and loaded with ten rows in it, gives no
    record ranked 51: the call throws [ReferenceError: $ is not defined];
    page 2 of the ESPN feed throws on [attributes].  The loop that would
    have ranked the ten rows 51 to 60 is there, behind the unresolved [$]. *)
Theorem rank_backfill_is_not_reached_on_node :
  outcome (getPlayerRankings literal_parseFloat (fun _ => rankings_page)
             node_global (answering html_page) 0
             (num 2024) (Some 2) VUndefined VUndefined VUndefined (Some "247"))
  = Some (Thrown (ReferenceError "$")) /\
  outcome (getPlayerRankings literal_parseFloat (fun _ => no_rows)
             node_global (answering espn_response) 0
             (num 2024) (Some 2) VUndefined VUndefined VUndefined (Some "ESPN"))
  = Some (Thrown (ReferenceError "attributes")) /\
  map (field "ranking") (players_247 literal_parseFloat rankings_page 2)
  = map num [51; 52; 53; 54; 55; 56; 57; 58; 59; 60].
Proof. repeat split; reflexivity. Qed.

(** The ESPN loop, had [attributes] been bound: the rank is counted from
    [1 + 25 * (page - 1)] when no attribute of type 0 is found, and is
    that attribute's value when one is. *)
Example players_espn_counted_rank :
  (records <- players_espn (Some []) (1 + 25 * (2 - 1)) [espn_athlete; espn_athlete] ;;
   Returned (map (field "ranking") records))
  = Returned [num 26; num 27].
Proof. reflexivity. Qed.

Example players_espn_attribute_rank :
  (records <- players_espn (Some [VObj [("type", num 0); ("value", num 7)]])
                (1 + 25 * (2 - 1)) [espn_athlete; espn_athlete] ;;
   Returned (map (field "ranking") records))
  = Returned [num 7; num 7].
Proof. reflexivity. Qed.

(* ================================================================== *)
(** ** Rows without a name or a rating (claim C5) *)
(* ================================================================== *)

Lemma filter_map_commute {A B} (f : B -> bool) (h : A -> B) (l : list A) :
  filter f (map h l) = map h (filter (fun x => f (h x)) l).
Proof.
  induction l as [|x l IH]; [reflexivity|].
  cbn [map filter]. destruct (f (h x)); cbn [map]; now rewrite IH.
Qed.

Lemma has_name_and_rating_commit (html : Element) :
  has_name_and_rating (commit_player html) = complete_row html.
Proof. reflexivity. Qed.

Lemma commits_of_complete_rows (dollar : Cheerio) :
  commits_of dollar
  = map commit_player (filter complete_row (dollar ".ri-page__list-item")).
Proof.
  unfold commits_of. rewrite filter_map_commute.
  f_equal.
Qed.

Lemma commit_player_named_and_rated (html : Element) :
  complete_row html = true ->
  exists name rating,
    field "name" (commit_player html) = VStr name /\ name <> "" /\
    field "rating" (commit_player html) = VStr rating /\ rating <> "".
Proof.
  unfold complete_row. intros Hrow.
  apply andb_true_iff in Hrow as (Hname & Hrating).
  apply negb_true_iff, String.eqb_neq in Hname, Hrating.
  eexists. eexists. repeat split; [exact Hname|exact Hrating].
Qed.

(** C5, as amended.  What [getSchoolCommits] returns is read from the
    answer to its GET of the school's commitments page: one record for
    each row of that page that yields both a non-empty name and a
    non-empty rating, in page order, and none for any other row; every
    record it returns has a non-empty name and a non-empty rating. *)
Theorem getSchoolCommits_drops_incomplete_rows
    (cheerio_load : Value -> Cheerio) (w : World) (school year : Value)
    (players : list Value) :
  outcome (getSchoolCommits cheerio_load w school year) = Some (Returned players) ->
  exists data,
    axios_get w (commits_url school year) browser_headers = Returned data /\
    let rows := cheerio_load data ".ri-page__list-item" in
    players = map commit_player (filter complete_row rows) /\
    (forall html, In html rows -> complete_row html = false ->
       ~ In (commit_player html) players) /\
    (forall player, In player players ->
       exists name rating,
         field "name" player = VStr name /\ name <> "" /\
         field "rating" player = VStr rating /\ rating <> "").
Proof.
  unfold getSchoolCommits. fold (commits_url school year). intros Hout.
  change {| headers := [user_agent]; params := None |} with browser_headers in Hout.
  destruct (axios_get w (commits_url school year) browser_headers)
    as [data|e] eqn:Hget; [|discriminate Hout].
  cbn in Hout. injection Hout as <-.
  exists data. split; [reflexivity|]. cbn zeta. rewrite commits_of_complete_rows.
  repeat split.
  - intros html _ Hdropped Hin.
    apply in_map_iff in Hin as (html' & Hsame & Hkept).
    apply filter_In in Hkept as (_ & Hkept).
    rewrite <- has_name_and_rating_commit in Hdropped, Hkept.
    rewrite Hsame in Hkept. congruence.
  - intros player Hin.
    apply in_map_iff in Hin as (html & <- & Hkept).
    apply filter_In in Hkept as (_ & Hkept).
    now apply commit_player_named_and_rated.
Qed.

(** Ten rows, two of them without name and rating: eight records. *)
Example getSchoolCommits_ten_rows :
  exists players,
    outcome (getSchoolCommits (loading commits_page) (answering html_page)
               (VStr "floridastate") (num 2021))
    = Some (Returned players) /\
    List.length players = 8%nat.
Proof. eexists. split; reflexivity. Qed.

(** Nothing is read from an answer that is not the page. *)
Example getSchoolCommits_other_answer :
  outcome (getSchoolCommits (loading commits_page) (answering VNull)
             (VStr "floridastate") (num 2021))
  = Some (Returned []).
Proof. reflexivity. Qed.

Lemma getSchoolCommits_drops_incomplete_rows_witness :
  exists data,
    axios_get (answering html_page)
      (commits_url (VStr "floridastate") (num 2021)) browser_headers
    = Returned data /\
    let rows := loading commits_page data ".ri-page__list-item" in
    commits_of commits_page = map commit_player (filter complete_row rows) /\
    (forall html, In html rows -> complete_row html = false ->
       ~ In (commit_player html) (commits_of commits_page)) /\
    (forall player, In player (commits_of commits_page) ->
       exists name rating,
         field "name" player = VStr name /\ name <> "" /\
         field "rating" player = VStr rating /\ rating <> "").
Proof.
  apply (getSchoolCommits_drops_incomplete_rows (loading commits_page)
           (answering html_page) (VStr "floridastate") (num 2021)).
  reflexivity.
Defined.

(** C5 as stated does not hold for [getPlayerRankings]: given the page of
    ten rows, two of them decoration, it does not return eight records.
    On Node it throws; and where [$] does resolve to the page, it returns
    all ten rows, the two without a name among them. *)
Lemma getPlayerRankings_keeps_unnamed_rows :
  outcome (getPlayerRankings literal_parseFloat (fun _ => rankings_page)
             node_global (answering html_page) 0
             (num 2024) (Some 1) VUndefined VUndefined VUndefined (Some "247"))
  = Some (Thrown (ReferenceError "$")) /\
  exists players,
    outcome (getPlayerRankings literal_parseFloat (fun _ => rankings_page)
               (host_with_dollar rankings_page) (answering html_page) 0
               (num 2024) (Some 1) VUndefined VUndefined VUndefined (Some "247"))
    = Some (Returned players) /\
    List.length players = 10%nat /\
    List.length (filter (fun p => negb (not_empty_string (field "name" p))) players)
    = 2%nat.
Proof.
  split; [reflexivity|]. eexists. repeat split; reflexivity.
Qed.

(* ================================================================== *)
(** ** Reading through a response *)
(* ================================================================== *)

Lemma get_returned (v x : Value) (k : string) :
  get v k = Returned x -> nullish v = false /\ field k v = x.
Proof.
  unfold field. intros Hget. rewrite Hget. split; [|reflexivity].
  destruct v; try reflexivity; discriminate Hget.
Qed.

Lemma get_thrown (v : Value) (k : string) (e : JsError) :
  get v k = Thrown e -> nullish v = true /\ err_name e = "TypeError".
Proof.
  destruct v; cbn [get]; intros Hget; try discriminate Hget;
    injection Hget as <-; split; reflexivity.
Qed.

Lemma index_returned (v x : Value) (i : nat) :
  index v i = Returned x -> nullish v = false /\ item i v = x.
Proof.
  unfold item. intros Hget. rewrite Hget. split; [|reflexivity].
  destruct v; try reflexivity; discriminate Hget.
Qed.

Lemma index_thrown (v : Value) (i : nat) (e : JsError) :
  index v i = Thrown e -> nullish v = true /\ err_name e = "TypeError".
Proof.
  destruct v; cbn [index]; intros Hget; try discriminate Hget;
    injection Hget as <-; split; reflexivity.
Qed.

(** What a plain-fetch operation settles with. *)
Lemma outcome_single_get {A B} (url : string) (config : AxiosConfig)
    (c : Completion A) (f : A -> Completion B) :
  outcome (_ <~ emit (AxiosGet url config) ;; x <~ liftC c ;; liftC (f x))
  = Some (bindC c f).
Proof. destruct c as [a|e]; [|reflexivity]. cbn. destruct (f a); reflexivity. Qed.

Lemma outcome_get_only {A} (url : string) (config : AxiosConfig) (c : Completion A) :
  outcome (_ <~ emit (AxiosGet url config) ;; liftC c) = Some c.
Proof. reflexivity. Qed.

Lemma trace_get_only {A} (url : string) (config : AxiosConfig) (c : Completion A) :
  trace (_ <~ emit (AxiosGet url config) ;; liftC c) = [AxiosGet url config].
Proof. reflexivity. Qed.

(** Turns what is known about every read into facts on [nullish],
    [field] and [item]. *)
Ltac read_facts :=
  repeat match goal with
         | H : get _ _ = Returned _ |- _ =>
             apply get_returned in H; destruct H as [? ?]
         | H : get _ _ = Thrown _ |- _ =>
             apply get_thrown in H; destruct H as [? ?]
         | H : index _ _ = Returned _ |- _ =>
             apply index_returned in H; destruct H as [? ?]
         | H : index _ _ = Thrown _ |- _ =>
             apply index_thrown in H; destruct H as [? ?]
         end.

Ltac next_read H :=
  match type of H with
  | bindC ?c _ = _ =>
      let x := fresh "x" in
      let e := fresh "e" in
      let R := fresh "Hread" in
      destruct c as [x|e] eqn:R; cbn [bindC] in H
  end.

Ltac use_nullish :=
  repeat match goal with
         | H : nullish ?v = _ |- context [nullish ?v] => rewrite H
         end.

Ltac settle_shape :=
  read_facts; subst;
  try match goal with
      | H : Returned _ = Returned _ |- _ => injection H as <-
      | H : Thrown _ = Thrown _ |- _ => injection H as <-
      end;
  try congruence;
  unfold has_game_package, has_first_competition, has_content;
  use_nullish; cbn [negb andb];
  repeat split; try reflexivity; try assumption; try congruence.

(* ================================================================== *)
(** ** When the game operations return *)
(* ================================================================== *)



(** An answer without competitions makes [getPicks] throw. *)
Example getPicks_without_competitions :
  outcome (getPicks (answering (VObj [("header", VObj [("id", VStr "1")])])) (num 1))
  = Some (Thrown (TypeError "Cannot read properties of undefined")).
Proof. reflexivity. Qed.

(** X2.  [getPlayByPlay] returns exactly when the answer has a
    [gamepackageJSON.header.competitions[0]] to read, and throws a
    [TypeError] otherwise.  In the record it returns, [teams] is the
    [competitors] of the first entry of [competitions], and [id] is the
    answer's [gameId] as it came. *)
Theorem getPlayByPlay_needs_game_package (w : World) (id data : Value) :
  axios_get w playbyplay_url
    {| headers := [];
       params := Some [("gameId", id); ("xhr", num 1); ("render", VStr "false");
                       ("userab", num 18)] |}
    = Returned data ->
  match outcome (getPlayByPlay w id) with
  | Some (Returned r) =>
      has_game_package data = true /\
      field "teams" r = field "competitors" (item 0 (field "competitions" r)) /\
      field "id" r = field "gameId" data
  | Some (Thrown e) =>
      has_game_package data = false /\ err_name e = "TypeError"
  | None => False
  end.
Proof.
  intros Hget. unfold getPlayByPlay. rewrite outcome_single_get, Hget. cbn [bindC].
  destruct (playbyplay_record data) as [r|e] eqn:Hrec; unfold playbyplay_record in Hrec;
    repeat next_read Hrec; try discriminate Hrec; settle_shape.
Qed.

Lemma getPlayByPlay_needs_game_package_witness :
  match outcome (getPlayByPlay (answering playbyplay_response) (num 401256194)) with
  | Some (Returned r) =>
      has_game_package playbyplay_response = true /\
      field "teams" r = field "competitors" (item 0 (field "competitions" r)) /\
      field "id" r = field "gameId" playbyplay_response
  | Some (Thrown e) =>
      has_game_package playbyplay_response = false /\ err_name e = "TypeError"
  | None => False
  end.
Proof.
  apply (getPlayByPlay_needs_game_package (answering playbyplay_response)
           (num 401256194) playbyplay_response).
  reflexivity.
Defined.

(** X3.  [getSummary] and [getPicks] send the same request; on the same answer
    they throw the same error or both return, and then the ten fields
    they have in common hold the same values. *)
Theorem getSummary_agrees_with_getPicks (w : World) (id : Value) :
  trace (getSummary w id) = trace (getPicks w id) /\
  match outcome (getSummary w id), outcome (getPicks w id) with
  | Some (Returned s), Some (Returned p) =>
      Forall (fun k => field k s = field k p) shared_summary_keys
  | Some (Thrown e), Some (Thrown e') => e = e'
  | _, _ => False
  end.
Proof.
  unfold getSummary, getPicks. rewrite !trace_single_get, !outcome_single_get.
  split; [reflexivity|].
  destruct (axios_get w summary_url _) as [data|e]; cbn [bindC]; [|reflexivity].
  destruct (summary_record data) as [s|e] eqn:Hsum; unfold summary_record in Hsum;
    repeat next_read Hsum; try discriminate Hsum;
    unfold picks_record;
    repeat match goal with
           | H : ?c = _ |- context [bindC ?c _] => rewrite H; cbn [bindC]
           end;
    repeat match goal with
           | |- context [bindC (get ?v ?k) _] =>
               let R := fresh "Hread" in
               destruct (get v k) eqn:R; cbn [bindC]
           end;
    try (injection Hsum as <-; reflexivity);
    try (injection Hsum as <-; repeat constructor).
  all: read_facts; congruence.
Qed.

(* ================================================================== *)
(** ** What getSchedule returns *)
(* ================================================================== *)

(** X4.  [getSchedule] returns exactly when the answer has a [content] to
    read, what it returns being [content.schedule], [undefined] when
    the content has none; an answer without [content] makes it throw a
    [TypeError]. *)
Theorem getSchedule_needs_content
    (w : World) (year month day groups seasontype data : Value) :
  axios_get w schedule_url
    {| headers := [];
       params := Some (schedule_params year month day groups seasontype) |}
    = Returned data ->
  match outcome (getSchedule w year month day groups seasontype) with
  | Some (Returned schedule) =>
      has_content data = true /\
      schedule = field "schedule" (field "content" data)
  | Some (Thrown e) => has_content data = false /\ err_name e = "TypeError"
  | None => False
  end.
Proof.
  intros Hget. unfold getSchedule. rewrite outcome_single_get, Hget. cbn [bindC].
  destruct (get data "content") as [content|e] eqn:Hcontent; cbn [bindC].
  - destruct (get content "schedule") as [schedule|e] eqn:Hschedule; settle_shape.
  - settle_shape.
Qed.

Lemma getSchedule_needs_content_witness :
  match outcome (getSchedule (answering schedule_without_games)
                   (num 2019) (num 11) (num 16) VUndefined VUndefined) with
  | Some (Returned schedule) =>
      has_content schedule_without_games = true /\
      schedule = field "schedule" (field "content" schedule_without_games)
  | Some (Thrown e) =>
      has_content schedule_without_games = false /\ err_name e = "TypeError"
  | None => False
  end.
Proof.
  apply (getSchedule_needs_content (answering schedule_without_games)
           (num 2019) (num 11) (num 16) VUndefined VUndefined schedule_without_games).
  reflexivity.
Defined.

Example getSchedule_without_games :
  outcome (getSchedule (answering schedule_without_games)
             (num 2019) (num 11) (num 16) VUndefined VUndefined)
  = Some (Returned VUndefined).
Proof. reflexivity. Qed.

(* ================================================================== *)
(** ** More on the scroll loop *)
(* ================================================================== *)

(** While the target row count is not shown, at most one attempt is
    counted per firing, and it takes twenty of them to give up. *)
Lemma interval_from_not_before (page : PageBehaviour) (target : Z) :
  forall (fuel k : nat) (st : LoopState) (n : nat),
    interval_from page target fuel k st = Some n ->
    (forall j, (k <= j <= n)%nat -> rows_length (page j) < target) ->
    (k <= n)%nat /\ maxAttempts <= attempts st + Z.of_nat (n - k).
Proof.
  induction fuel as [|fuel IH]; intros k st n Hrun Hrows; [discriminate Hrun|].
  cbn [interval_from] in Hrun.
  destruct (timer_callback target (page k) st) as [st'|[]] eqn:Hcb.
  - apply timer_callback_continues in Hcb as (_ & _ & _ & Hstep).
    assert (Hn : (S k <= n)%nat /\ maxAttempts <= attempts st' + Z.of_nat (n - S k)).
    { apply (IH (S k) st' n Hrun). intros j Hj. apply Hrows. lia. }
    destruct Hstep as [[Hatt _]|[Hatt _]]; lia.
  - injection Hrun as <-. apply timer_callback_resolves in Hcb.
    specialize (Hrows k ltac:(lia)). lia.
Qed.

(** X5.  On a page that does not show the target row count, [autoScroll] does
    not resolve before its 21st firing: the caller waits at least 10.5
    seconds. *)
Theorem autoScroll_gives_up_no_sooner_than_21
    (page : PageBehaviour) (targetRowCount : option Z) (fuel n : nat) :
  autoScroll page targetRowCount fuel = Some n ->
  (forall j, (1 <= j <= n)%nat ->
     rows_length (page j) < match targetRowCount with Some t => t | None => 250 end) ->
  (21 <= n)%nat /\ 10500 <= elapsed_ms n.
Proof.
  unfold autoScroll. intros Hrun Hrows.
  apply interval_from_not_before in Hrun as (Hn & Hatt); [|exact Hrows].
  cbn [attempts initial] in Hatt. unfold maxAttempts in Hatt.
  unfold elapsed_ms, interval_ms. lia.
Qed.

Lemma autoScroll_gives_up_no_sooner_than_21_witness :
  (21 <= 30)%nat /\ 10500 <= elapsed_ms 30.
Proof.
  apply (autoScroll_gives_up_no_sooner_than_21 stalled None 40 30).
  - reflexivity.
  - intros j Hj. cbn. lia.
Defined.

(** X6.  When the page first shows the target row count at firing [k], and
    [k] is among the first 21, [autoScroll] resolves at firing [k]
    exactly: not earlier, not later. *)
Theorem autoScroll_stops_at_first_full_page
    (page : PageBehaviour) (targetRowCount : option Z) (k fuel : nat) :
  let target := match targetRowCount with Some t => t | None => 250 end in
  (1 <= k <= 21)%nat ->
  target <= rows_length (page k) ->
  (forall j, (1 <= j < k)%nat -> rows_length (page j) < target) ->
  (k <= fuel)%nat ->
  autoScroll page targetRowCount fuel = Some k.
Proof.
  intros target Hk Hfull Hbefore Hfuel. unfold autoScroll.
  fold target. change defaultTargetRowCount with 250. fold target.
  destruct (interval_from_reaches_target page target k Hfull (k - 1) 1%nat initial)
    as (n & Hn & Hrun); [lia|].
  rewrite (Hrun fuel) by lia. f_equal.
  destruct (Nat.eq_dec n k) as [Heq|Hneq]; [assumption|].
  pose proof (Hrun fuel ltac:(lia)) as Hat.
  apply interval_from_not_before in Hat as (_ & Hatt).
  - cbn [attempts initial] in Hatt. unfold maxAttempts in Hatt. lia.
  - intros j Hj. apply Hbefore. lia.
Qed.

Lemma autoScroll_stops_at_first_full_page_witness :
  autoScroll (fun j => {| rows_length := 100 * Z.of_nat j; scrollHeight := 50000 |})
    None 10 = Some 3%nat.
Proof.
  apply (autoScroll_stops_at_first_full_page
           (fun j => {| rows_length := 100 * Z.of_nat j; scrollHeight := 50000 |})
           None 3 10).
  - lia.
  - cbn [rows_length]. lia.
  - intros j Hj. cbn [rows_length]. lia.
  - lia.
Defined.

(** A static page: no attempt is counted before the scrolled distance
    reaches its height, one per firing from then on. *)
Lemma interval_from_static (rows H target : Z) (k0 : nat) :
  rows < target ->
  (1 <= k0)%nat ->
  H <= distance * Z.of_nat k0 ->
  (forall k, (1 <= k < k0)%nat -> distance * Z.of_nat k < H) ->
  forall (m k : nat) (st : LoopState),
    (1 <= k)%nat -> (k + m = k0 + 20)%nat ->
    totalHeight st = distance * (Z.of_nat k - 1) ->
    attempts st = Z.max 0 (Z.of_nat k - Z.of_nat k0) ->
    forall fuel, (m < fuel)%nat ->
      interval_from (fun _ => {| rows_length := rows; scrollHeight := H |})
        target fuel k st = Some (k0 + 20)%nat.
Proof.
  intros Hrows Hk0 Hreach Hbelow. unfold distance in *.
  induction m as [|m IH]; intros k st Hk Hkm Htotal Hatt [|fuel] Hfuel; try lia.
  - replace (k0 + 20)%nat with k by lia.
    apply interval_from_resolved_at; [|lia].
    apply timer_callback_resolves. right. unfold maxAttempts. lia.
  - cbn [interval_from].
    destruct (timer_callback target {| rows_length := rows; scrollHeight := H |} st)
      as [st'|[]] eqn:Hcb.
    + apply timer_callback_continues in Hcb as (_ & _ & Htot' & Hstep).
      cbn [rows_length scrollHeight] in Hstep. unfold distance in *.
      apply (IH (S k) st'); try lia.
      destruct (le_lt_dec k0 k) as [Hge|Hlt].
      * destruct Hstep as [[-> _]|[_ Hno]]; lia.
      * specialize (Hbelow k ltac:(lia)).
        destruct Hstep as [[_ Hyes]|[-> _]]; lia.
    + apply timer_callback_resolves in Hcb. cbn [rows_length] in Hcb.
      unfold maxAttempts in Hcb. lia.
Qed.

(** X7.  On a page that stays as it is, with fewer rows than the target and
    scrollable height [H], [autoScroll] resolves at firing
    [max(1, ceil(H/100)) + 20] exactly. *)
Theorem autoScroll_static_page_firings
    (rows H : Z) (targetRowCount : option Z) (fuel : nat) :
  rows < match targetRowCount with Some t => t | None => 250 end ->
  (firings_bound H <= fuel)%nat ->
  autoScroll (fun _ => {| rows_length := rows; scrollHeight := H |})
    targetRowCount fuel
  = Some (firings_bound H).
Proof.
  intros Hrows Hfuel. unfold autoScroll, firings_bound in *.
  set (k0 := Nat.max 1 (Z.to_nat ((H + 99) / 100))) in *.
  assert (Hdiv : 100 * ((H + 99) / 100) <= H + 99 < 100 * ((H + 99) / 100) + 100).
  { pose proof (Z.div_mod (H + 99) 100 ltac:(lia)).
    pose proof (Z.mod_pos_bound (H + 99) 100 ltac:(lia)). lia. }
  apply (interval_from_static rows H _ k0) with (m := (k0 + 20 - 1)%nat);
    unfold distance, defaultTargetRowCount; try lia; try reflexivity.
  cbn [attempts initial]. lia.
Qed.

Lemma autoScroll_static_page_firings_witness :
  autoScroll (fun _ => {| rows_length := 100; scrollHeight := 1000 |}) None 40
  = Some (firings_bound 1000).
Proof.
  apply (autoScroll_static_page_firings 100 1000 None 40).
  - lia.
  - vm_compute. lia.
Defined.

(* ================================================================== *)
(** ** The browser session of the Rivals path *)
(* ================================================================== *)

Section RivalsPath.

Variable parseFloat : string -> Value.
Variable cheerio_load : Value -> Cheerio.
Variable g : GlobalObject.
Variable w : World.

Lemma rankings_rivals
    (fuel : nat) (year : Value) (page : option Z) (group position state : Value) :
  getPlayerRankings parseFloat cheerio_load g w fuel
    year page group position state (Some "Rivals")
  = match autoScroll (page_behaviour w (rivals_url year)) None fuel with
    | Some n =>
        ([PuppeteerLaunch; BrowserNewPage; PageGoto (rivals_url year);
          PageEvaluateScroll n; PageContent; BrowserClose],
         Some (extract_rankings parseFloat cheerio_load g
                 (page_content w (rivals_url year) n)
                 (match page with Some p => p | None => 1 end) "Rivals"))
    | None =>
        ([PuppeteerLaunch; BrowserNewPage; PageGoto (rivals_url year);
          PageEvaluateScroll fuel],
         None)
    end.
Proof.
  unfold getPlayerRankings, liftC, bindA at 1. cbn -[autoScroll ToString].
  unfold fetchRankingsData. cbn -[autoScroll ToString].
  change (autoScroll (page_behaviour w (rivals_url year)) None fuel)
    with (autoScroll (page_behaviour w
            ("https://n.rivals.com/prospect_rankings/rivals250/" ++ ToString year))
            None fuel).
  cbn -[autoScroll ToString].
  match goal with
  | |- context [autoScroll ?p None fuel] => destruct (autoScroll p None fuel)
  end; reflexivity.
Qed.

(** On a page never higher than [H] the loop resolves within
    [firings_bound H] firings. *)
Lemma autoScroll_resolves_within (page : PageBehaviour) (H : Z) (fuel : nat) :
  (forall k, scrollHeight (page k) <= H) ->
  (firings_bound H <= fuel)%nat ->
  exists n, (1 <= n <= firings_bound H)%nat /\ autoScroll page None fuel = Some n.
Proof.
  intros Hheight Hfuel. unfold firings_bound in *.
  set (k0 := Z.to_nat ((H + 99) / 100)) in *.
  assert (Hk0 : H <= distance * Z.of_nat k0).
  { unfold distance, k0. destruct (Z_le_gt_dec H 0) as [Hneg|Hpos]; [lia|].
    rewrite Z2Nat.id by (apply Z.div_pos; lia).
    pose proof (Z.mod_pos_bound (H + 99) 100 ltac:(lia)).
    pose proof (Z.div_mod (H + 99) 100 ltac:(lia)). lia. }
  destruct (interval_from_bounded page defaultTargetRowCount H k0 Hheight Hk0
              (Nat.max 1 k0 + 20 - 1) 1%nat initial)
    as (n & Hn & Hrun); try reflexivity; try (cbn; unfold maxAttempts; lia).
  exists n. split; [lia|]. apply Hrun. lia.
Qed.

End RivalsPath.

(** With no step failing, the session is the one [fetchRankingsData] takes
    for granted. *)
Lemma getPlayerRankings_without_faults
    (parseFloat : string -> Value) (cheerio_load : Value -> Cheerio)
    (g : GlobalObject) (w : World) (fuel : nat)
    (year : Value) (page : option Z) (group position state : Value)
    (service : option string) :
  Puppeteer.getPlayerRankings parseFloat cheerio_load g Puppeteer.no_faults w fuel
    year page group position state service
  = getPlayerRankings parseFloat cheerio_load g w fuel
      year page group position state service.
Proof.
  unfold Puppeteer.getPlayerRankings, getPlayerRankings.
  destruct (rankings_target _ _ _ _ _ _) as [[baseUrl params]|e]; [|reflexivity].
  unfold liftC at 1 3. unfold bindA at 1 3. cbn [app].
  assert (Hfetch : Puppeteer.fetchRankingsData Puppeteer.no_faults w fuel baseUrl
                     (rankings_config params)
                     (match service with Some s => s | None => "247Composite" end)
                   = fetchRankingsData w fuel baseUrl (rankings_config params)
                       (match service with Some s => s | None => "247Composite" end)).
  { unfold Puppeteer.fetchRankingsData, fetchRankingsData, Puppeteer.autoScroll.
    destruct (str_eqb _ "rivals"); [|reflexivity].
    cbn -[Scroll.autoScroll].
    destruct (Scroll.autoScroll _ None fuel); reflexivity. }
  now rewrite Hfetch.
Qed.

(** The Rivals session in full: each step is first attempted, and the
    first to fail ends the call. *)
Lemma rankings_rivals_session
    (parseFloat : string -> Value) (cheerio_load : Value -> Cheerio)
    (g : GlobalObject) (f : Puppeteer.Faults) (w : World) (fuel : nat)
    (year : Value) (page : option Z) (group position state : Value) :
  Puppeteer.getPlayerRankings parseFloat cheerio_load g f w fuel
    year page group position state (Some "Rivals")
  = match Puppeteer.launch_fault f with
    | Some e => ([PuppeteerLaunch], Some (Thrown e))
    | None =>
    match Puppeteer.newPage_fault f with
    | Some e => ([PuppeteerLaunch; BrowserNewPage], Some (Thrown e))
    | None =>
    match Puppeteer.goto_fault f with
    | Some e =>
        ([PuppeteerLaunch; BrowserNewPage; PageGoto (rivals_url year)],
         Some (Thrown e))
    | None =>
    match Puppeteer.autoScroll f (page_behaviour w (rivals_url year)) fuel with
    | (scroll, Some (Returned n)) =>
        match Puppeteer.content_fault f with
        | Some e =>
            ((PuppeteerLaunch :: BrowserNewPage :: PageGoto (rivals_url year)
                :: scroll ++ [PageContent])%list,
             Some (Thrown e))
        | None =>
            ((PuppeteerLaunch :: BrowserNewPage :: PageGoto (rivals_url year)
                :: scroll ++ [PageContent; BrowserClose])%list,
             Some (match Puppeteer.close_fault f with
                   | Some e => Thrown e
                   | None =>
                       extract_rankings parseFloat cheerio_load g
                         (page_content w (rivals_url year) n)
                         (match page with Some p => p | None => 1 end) "Rivals"
                   end))
        end
    | (scroll, Some (Thrown e)) =>
        ((PuppeteerLaunch :: BrowserNewPage :: PageGoto (rivals_url year)
            :: scroll)%list,
         Some (Thrown e))
    | (scroll, None) =>
        ((PuppeteerLaunch :: BrowserNewPage :: PageGoto (rivals_url year)
            :: scroll)%list,
         None)
    end end end end.
Proof.
  unfold Puppeteer.getPlayerRankings.
  change (rankings_target year (match page with Some p => p | None => 1 end)
            (default_to (VStr "HighSchool") group) (default_to VNull position)
            (default_to VNull state) "Rivals")
    with (@Returned (string * option (list (string * Value))) (rivals_url year, None)).
  unfold liftC at 1. unfold bindA at 1. cbn [app].
  unfold Puppeteer.fetchRankingsData.
  change (str_eqb (toLowerCase "Rivals") "rivals") with true. cbv iota.
  unfold emit, liftC, retA, Puppeteer.step.
  destruct (Puppeteer.launch_fault f); [reflexivity|].
  destruct (Puppeteer.newPage_fault f); [reflexivity|].
  destruct (Puppeteer.goto_fault f); [reflexivity|].
  cbn [bindA app].
  destruct (Puppeteer.autoScroll f _ fuel) as [scroll [[n|e]|]];
    cbn [bindA app]; try reflexivity.
  destruct (Puppeteer.content_fault f); cbn [bindA app]; [reflexivity|].
  destruct (Puppeteer.close_fault f); cbn [bindA app]; rewrite ?app_nil_r;
    reflexivity.
Qed.

(** How the evaluation of the scroll loop ends. *)
Lemma autoScroll_session_cases
    (f : Puppeteer.Faults) (page : PageBehaviour) (fuel : nat) :
  (exists n, scrolled f page fuel n /\
     Puppeteer.autoScroll f page fuel
     = ([PageEvaluateScroll n], Some (Returned n)))
  \/ (still_scrolling f page fuel /\
      Puppeteer.autoScroll f page fuel = ([PageEvaluateScroll fuel], None))
  \/ (exists m e, Puppeteer.evaluate_fault f = Some (m, e) /\
        (forall n, ~ scrolled f page fuel n) /\ ~ still_scrolling f page fuel /\
        Puppeteer.autoScroll f page fuel
        = ([PageEvaluateScroll m], Some (Thrown e))).
Proof.
  unfold Puppeteer.autoScroll, scrolled, still_scrolling.
  destruct (Scroll.autoScroll page None fuel) as [n|] eqn:Hrun.
  - destruct (Puppeteer.evaluate_fault f) as [[m e]|] eqn:Hfault.
    + destruct (Nat.ltb_spec m n) as [Hlt|Hge].
      * right. right. exists m, e. repeat split.
        -- intros n' (Hn' & Hlate). injection Hn' as <-.
           specialize (Hlate m e eq_refl). lia.
        -- intros (Hnone & _). discriminate Hnone.
      * left. exists n. repeat split.
        intros m' e' Hsame. injection Hsame as <- <-. assumption.
    + left. exists n. repeat split. intros m e Hsome. discriminate Hsome.
  - destruct (Puppeteer.evaluate_fault f) as [[m e]|] eqn:Hfault.
    + destruct (Nat.leb_spec m fuel) as [Hle|Hgt].
      * right. right. exists m, e. repeat split.
        -- intros n' (Hn' & _). discriminate Hn'.
        -- intros (_ & Hlate). specialize (Hlate m e eq_refl). lia.
      * right. left. repeat split.
        intros m' e' Hsame. injection Hsame as <- <-. assumption.
    + right. left. repeat split. intros m e Hsome. discriminate Hsome.
Qed.

(** X8.  For Rivals, on a page whose height stays within [H], given the time
    of [firings_bound H] firings and with no step of the session failing
    before the close within that time, [getPlayerRankings] launches one
    browser, opens one page, goes to the Rivals URL, scrolls, reads the
    content and closes the browser, in this order and sending no GET.
    It then rejects with the error of the close if the close fails, and
    otherwise settles with what the extractor makes of the global [$]:
    on a host without one, [ReferenceError: $ is not defined]. *)
Theorem rivals_session_is_closed_when_height_bounded
    (parseFloat : string -> Value) (cheerio_load : Value -> Cheerio)
    (g : GlobalObject) (f : Puppeteer.Faults) (w : World) (fuel : nat)
    (year : Value) (page : option Z) (group position state : Value) (H : Z) :
  (forall k, scrollHeight (page_behaviour w (rivals_url year) k) <= H) ->
  (firings_bound H <= fuel)%nat ->
  steps_succeed f (firings_bound H) ->
  exists n, (1 <= n <= firings_bound H)%nat /\
    Puppeteer.getPlayerRankings parseFloat cheerio_load g f w fuel
      year page group position state (Some "Rivals")
    = ([PuppeteerLaunch; BrowserNewPage; PageGoto (rivals_url year);
        PageEvaluateScroll n; PageContent; BrowserClose],
       Some (match Puppeteer.close_fault f with
             | Some e => Thrown e
             | None =>
                 dollar <- resolve "$" (global_dollar g) ;;
                 Returned (players_rivals dollar)
             end)).
Proof.
  intros Hheight Hfuel (Hlaunch & HnewPage & Hgoto & Hevaluate & Hcontent).
  destruct (autoScroll_resolves_within _ H fuel Hheight Hfuel) as (n & Hn & Hrun).
  exists n. split; [assumption|].
  rewrite rankings_rivals_session, Hlaunch, HnewPage, Hgoto, Hcontent.
  unfold Puppeteer.autoScroll. rewrite Hrun.
  destruct (Puppeteer.evaluate_fault f) as [[m e]|] eqn:Hfault.
  - specialize (Hevaluate m e eq_refl).
    destruct (Nat.ltb_spec m n) as [Hlt|Hge]; [lia|reflexivity].
  - reflexivity.
Qed.

Lemma rivals_session_is_closed_when_height_bounded_witness :
  exists n, (1 <= n <= firings_bound 1000)%nat /\
    Puppeteer.getPlayerRankings literal_parseFloat (fun _ => no_rows) node_global
      evaluate_times_out stalled_world 30 (num 2024) None
      VUndefined VUndefined VUndefined (Some "Rivals")
    = ([PuppeteerLaunch; BrowserNewPage; PageGoto (rivals_url (num 2024));
        PageEvaluateScroll n; PageContent; BrowserClose],
       Some (match Puppeteer.close_fault evaluate_times_out with
             | Some e => Thrown e
             | None =>
                 dollar <- resolve "$" (global_dollar node_global) ;;
                 Returned (players_rivals dollar)
             end)).
Proof.
  apply (rivals_session_is_closed_when_height_bounded literal_parseFloat
           (fun _ => no_rows) node_global evaluate_times_out stalled_world 30
           (num 2024) None VUndefined VUndefined VUndefined 1000).
  - intros k. cbn. lia.
  - vm_compute. lia.
  - unfold steps_succeed. cbn [evaluate_times_out Puppeteer.launch_fault
      Puppeteer.newPage_fault Puppeteer.goto_fault Puppeteer.evaluate_fault
      Puppeteer.content_fault].
    repeat split. intros m e Hsame. injection Hsame as <- _. vm_compute. lia.
Defined.

(** X9.  For Rivals, once the browser is launched it is closed only after
    every later step has succeeded: the page opened, the navigation done,
    the scroll loop resolved before its evaluation rejects, the content
    read.  The call is pending exactly while the page is open and the
    loop still running; in every other case without the close it has
    rejected with the error of a failed step, the browser left open. *)
Theorem rivals_browser_is_closed_only_after_every_step
    (parseFloat : string -> Value) (cheerio_load : Value -> Cheerio)
    (g : GlobalObject) (f : Puppeteer.Faults) (w : World) (fuel : nat)
    (year : Value) (page : option Z) (group position state : Value) :
  Puppeteer.launch_fault f = None ->
  let run := Puppeteer.getPlayerRankings parseFloat cheerio_load g f w fuel
               year page group position state (Some "Rivals") in
  let scroll := page_behaviour w (rivals_url year) in
  (In BrowserClose (trace run) <->
     Puppeteer.newPage_fault f = None /\ Puppeteer.goto_fault f = None /\
     (exists n, scrolled f scroll fuel n) /\ Puppeteer.content_fault f = None) /\
  (outcome run = None <->
     Puppeteer.newPage_fault f = None /\ Puppeteer.goto_fault f = None /\
     still_scrolling f scroll fuel) /\
  (~ In BrowserClose (trace run) ->
     In PuppeteerLaunch (trace run) /\
     (outcome run = None \/
      exists e, outcome run = Some (Thrown e) /\ In e (session_faults f))).
Proof.
  intros Hlaunch run scroll. subst run scroll.
  rewrite rankings_rivals_session, Hlaunch. unfold session_faults.
  destruct (Puppeteer.newPage_fault f) as [e1|] eqn:HnewPage.
  { cbn [trace outcome fst snd]. split; [|split].
    - split; [intros [H|[H|[]]]; discriminate H|intros (H & _); discriminate H].
    - split; [intros H; discriminate H|intros (H & _); discriminate H].
    - intros _. split; [now left|]. right. exists e1. split; [reflexivity|now left]. }
  destruct (Puppeteer.goto_fault f) as [e2|] eqn:Hgoto.
  { cbn [trace outcome fst snd]. split; [|split].
    - split; [intros [H|[H|[H|[]]]]; discriminate H
             |intros (_ & H & _); discriminate H].
    - split; [intros H; discriminate H|intros (_ & H & _); discriminate H].
    - intros _. split; [now left|]. right. exists e2. split; [reflexivity|now left]. }
  destruct (autoScroll_session_cases f (page_behaviour w (rivals_url year)) fuel)
    as [(n & Hscrolled & ->)|[(Hstill & ->)|(m & e & Hfault & Hnot & Hrunning & ->)]].
  - destruct (Puppeteer.content_fault f) as [e3|] eqn:Hcontent.
    + cbn [trace outcome fst snd app]. split; [|split].
      * split; [intros [H|[H|[H|[H|[H|[]]]]]]; discriminate H
               |intros (_ & _ & _ & H); discriminate H].
      * split; [intros H; discriminate H|].
        intros (_ & _ & Hnone & _). destruct Hscrolled as (Hsome & _).
        rewrite Hsome in Hnone. discriminate Hnone.
      * intros _. split; [now left|]. right. exists e3.
        split; [reflexivity|]. rewrite !in_app_iff. cbn. tauto.
    + cbn [trace outcome fst snd app]. split; [|split].
      * split; [intros _; repeat split; now exists n|].
        intros _. right. right. right. right. right. now left.
      * split; [intros H; discriminate H|].
        intros (_ & _ & Hnone & _). destruct Hscrolled as (Hsome & _).
        rewrite Hsome in Hnone. discriminate Hnone.
      * intros Hopen. exfalso. apply Hopen.
        right. right. right. right. right. now left.
  - cbn [trace outcome fst snd app]. split; [|split].
    + split; [intros [H|[H|[H|[H|[]]]]]; discriminate H|].
      intros (_ & _ & (n & Hsome & _) & _). destruct Hstill as (Hnone & _).
      rewrite Hsome in Hnone. discriminate Hnone.
    + split; [intros _; repeat split; apply Hstill|reflexivity].
    + intros _. split; [now left|now left].
  - cbn [trace outcome fst snd app]. split; [|split].
    + split; [intros [H|[H|[H|[H|[]]]]]; discriminate H|].
      intros (_ & _ & (n & Hn) & _). now elim (Hnot n).
    + split; [intros H; discriminate H|].
      intros (_ & _ & Hstill). now elim Hrunning.
    + intros _. split; [now left|]. right. exists e. split; [reflexivity|].
      rewrite Hfault, !in_app_iff. cbn. tauto.
Qed.

Lemma rivals_browser_is_closed_only_after_every_step_witness :
  let run := Puppeteer.getPlayerRankings literal_parseFloat (fun _ => no_rows)
               node_global goto_times_out stalled_world 30 (num 2024) None
               VUndefined VUndefined VUndefined (Some "Rivals") in
  let scroll := page_behaviour stalled_world (rivals_url (num 2024)) in
  (In BrowserClose (trace run) <->
     Puppeteer.newPage_fault goto_times_out = None /\
     Puppeteer.goto_fault goto_times_out = None /\
     (exists n, scrolled goto_times_out scroll 30 n) /\
     Puppeteer.content_fault goto_times_out = None) /\
  (outcome run = None <->
     Puppeteer.newPage_fault goto_times_out = None /\
     Puppeteer.goto_fault goto_times_out = None /\
     still_scrolling goto_times_out scroll 30) /\
  (~ In BrowserClose (trace run) ->
     In PuppeteerLaunch (trace run) /\
     (outcome run = None \/
      exists e, outcome run = Some (Thrown e) /\ In e (session_faults goto_times_out))).
Proof.
  apply (rivals_browser_is_closed_only_after_every_step literal_parseFloat
           (fun _ => no_rows) node_global goto_times_out stalled_world 30
           (num 2024) None VUndefined VUndefined VUndefined).
  reflexivity.
Defined.

(** A navigation that times out: the call rejects with the browser
    launched, a page opened and nothing closed. *)
Example rivals_navigation_times_out :
  Puppeteer.getPlayerRankings literal_parseFloat (fun _ => no_rows)
    node_global goto_times_out stalled_world 30 (num 2024) None
    VUndefined VUndefined VUndefined (Some "Rivals")
  = ([PuppeteerLaunch; BrowserNewPage; PageGoto (rivals_url (num 2024))],
     Some (Thrown (Err "TimeoutError" "Navigation timeout of 30000 ms exceeded"))).
Proof. reflexivity. Qed.

(** On the ever-growing page the evaluation is what ends the call, after
    its 360 firings, and again the browser stays open. *)
Example rivals_evaluation_times_out :
  Puppeteer.getPlayerRankings literal_parseFloat (fun _ => no_rows)
    node_global evaluate_times_out growing_world 400 (num 2024) None
    VUndefined VUndefined VUndefined (Some "Rivals")
  = ([PuppeteerLaunch; BrowserNewPage; PageGoto (rivals_url (num 2024));
      PageEvaluateScroll 360],
     Some (Thrown (Err "ProtocolError" "Runtime.callFunctionOn timed out"))).
Proof. vm_compute. reflexivity. Qed.

(** On the ever-growing page this holds however long one waits. *)
Example rivals_never_settles_on_growing_page (fuel : nat) :
  outcome (getPlayerRankings literal_parseFloat (fun _ => no_rows) node_global
             growing_world fuel (num 2024) None VUndefined VUndefined VUndefined
             (Some "Rivals"))
  = None.
Proof.
  rewrite rankings_rivals. unfold autoScroll. cbn [page_behaviour growing_world].
  rewrite ever_growing_pending; reflexivity.
Qed.

(* ================================================================== *)
(** ** getPlayerRankings on a host without [$] and [attributes] *)
(* ================================================================== *)

Lemma players_espn_unbound_returns (rank : Z) (records players : list Value) :
  players_espn None rank records = Returned players ->
  records = [] /\ players = [].
Proof.
  destruct records as [|record rest]; intros Hrun.
  - injection Hrun as <-. split; reflexivity.
  - destruct (players_espn_unbound_attributes rank record rest) as (e & He & _).
    rewrite He in Hrun. discriminate Hrun.
Qed.

(** X10.  On a host that defines neither [$] nor [attributes] (Node.js),
    [getPlayerRankings] never returns a player: whatever the service,
    the arguments and the answers of the outside world, a call that
    returns does so for the ESPN service, with an empty list. *)
Theorem getPlayerRankings_returns_no_player_without_globals
    (parseFloat : string -> Value) (cheerio_load : Value -> Cheerio)
    (g : GlobalObject) (w : World) (fuel : nat)
    (year : Value) (page : option Z) (group position state : Value)
    (service : option string) (players : list Value) :
  global_dollar g = None ->
  global_attributes g = None ->
  outcome (getPlayerRankings parseFloat cheerio_load g w fuel
             year page group position state service)
  = Some (Returned players) ->
  service = Some "ESPN" /\ players = [].
Proof.
  intros Hdollar Hattributes Hout.
  set (service' := match service with Some s => s | None => "247Composite" end).
  destruct (in_dec string_dec service' recognized) as [Hknown|Hunknown].
  2: { unfold getPlayerRankings in Hout. fold service' in Hout.
       rewrite rankings_target_unrecognized in Hout by assumption.
       discriminate Hout. }
  assert (Hcases : service = None \/ service = Some "247Composite" \/
                   service = Some "247" \/ service = Some "On3" \/
                   service = Some "On3Composite" \/ service = Some "Rivals" \/
                   service = Some "ESPN").
  { destruct service as [s|]; [|tauto]. cbn in service'. subst service'.
    cbn in Hknown. intuition (subst; tauto). }
  destruct Hcases as [->|[->|[->|[->|[->|[->| ->]]]]]].
  1-5: (erewrite outcome_rankings_get in Hout; cycle 1;
        [reflexivity | reflexivity |]);
       destruct (axios_get w _ _) as [data|e]; cbn [bindC] in Hout;
       try discriminate Hout;
       rewrite extract_rankings_html in Hout by (cbn; tauto);
       rewrite Hdollar in Hout; discriminate Hout.
  - rewrite rankings_rivals in Hout.
    destruct (autoScroll _ None fuel) as [n|]; [|discriminate Hout].
    cbn [outcome snd] in Hout.
    rewrite extract_rankings_html in Hout by (cbn; tauto).
    rewrite Hdollar in Hout. discriminate Hout.
  - split; [reflexivity|].
    erewrite outcome_rankings_get in Hout; cycle 1; [reflexivity | reflexivity |].
    destruct (axios_get w _ _) as [data|e]; cbn [bindC] in Hout;
      [|discriminate Hout].
    rewrite extract_rankings_espn, Hattributes in Hout.
    destruct (get data "items") as [allItems|e]; cbn [bindC] in Hout;
      [|discriminate Hout].
    destruct (iterate allItems) as [records|e]; cbn [bindC] in Hout;
      [|discriminate Hout].
    injection Hout as Hout.
    now apply players_espn_unbound_returns in Hout.
Qed.

Lemma getPlayerRankings_returns_no_player_without_globals_witness :
  Some "ESPN" = Some "ESPN" /\ @nil Value = [].
Proof.
  apply (getPlayerRankings_returns_no_player_without_globals literal_parseFloat
           (fun _ => no_rows) node_global (answering (VObj [("items", VArr [])])) 0
           (num 2021) (Some 1) VUndefined VUndefined VUndefined (Some "ESPN") []).
  - reflexivity.
  - reflexivity.
  - reflexivity.
Defined.

(* ================================================================== *)
(** ** A rejected GET *)
(* ================================================================== *)

Lemma rejected_single_get {A B} (url : string) (config : AxiosConfig)
    (e : JsError) (f : A -> Completion B) :
  rejected_after_one_get
    (_ <~ emit (AxiosGet url config) ;; x <~ liftC (Thrown e) ;; liftC (f x)) e.
Proof. split; [reflexivity|]. eexists. eexists. reflexivity. Qed.

Lemma rejected_get_only {A} (url : string) (config : AxiosConfig) (e : JsError) :
  rejected_after_one_get
    (_ <~ emit (AxiosGet url config) ;; liftC (@Thrown A e)) e.
Proof. split; [reflexivity|]. eexists. eexists. reflexivity. Qed.

(** X11.  When the GET is rejected with [e], every operation that fetches by
    GET is rejected with that same [e] after this one request: nothing
    is retried, nothing is caught or wrapped. *)
Theorem rejected_get_is_passed_on
    (parseFloat : string -> Value) (cheerio_load : Value -> Cheerio)
    (g : GlobalObject) (w : World) (fuel : nat) (e : JsError)
    (id year month day week school groups seasontype limit group : Value)
    (page : option Z) (position state : Value) (currentYear : Z)
    (service : string) :
  (forall url config, axios_get w url config = Thrown e) ->
  In service ["247Composite"; "247"; "On3"; "On3Composite"; "ESPN"] ->
  rejected_after_one_get (getPlayByPlay w id) e /\
  rejected_after_one_get (getSummary w id) e /\
  rejected_after_one_get (getPicks w id) e /\
  rejected_after_one_get
    (getPlayerRankings parseFloat cheerio_load g w fuel
       year page group position state (Some service)) e /\
  rejected_after_one_get (getSchoolCommits cheerio_load w school year) e /\
  rejected_after_one_get (getRankings w year week) e /\
  rejected_after_one_get (getSchedule w year month day groups seasontype) e /\
  rejected_after_one_get (getScoreboard w year month day groups seasontype limit) e /\
  rejected_after_one_get (getConferences w currentYear year group) e /\
  rejected_after_one_get (getStandings w currentYear year group) e /\
  rejected_after_one_get (getTeamList w group) e /\
  rejected_after_one_get (getTeamInfo w id) e /\
  rejected_after_one_get (getTeamPlayers w id) e.
Proof.
  intros Hget Hservice.
  assert (Hrankings :
            rejected_after_one_get
              (getPlayerRankings parseFloat cheerio_load g w fuel
                 year page group position state (Some service)) e).
  { split.
    - destruct Hservice as [<-|[<-|[<-|[<-|[<-|[]]]]]];
        (erewrite outcome_rankings_get; cycle 1; [reflexivity | reflexivity |]);
        rewrite Hget; reflexivity.
    - destruct Hservice as [<-|[<-|[<-|[<-|[<-|[]]]]]];
        eexists; eexists;
        (erewrite trace_rankings_get; cycle 1;
         [reflexivity | reflexivity | reflexivity]). }
  unfold getPlayByPlay, getSummary, getPicks, getSchoolCommits, getRankings,
    getSchedule, getScoreboard, getConferences, getStandings, getTeamList,
    getTeamInfo, getTeamPlayers.
  rewrite !Hget.
  repeat match goal with |- _ /\ _ => split end;
    try assumption; try apply rejected_single_get; try apply rejected_get_only.
Qed.

Lemma rejected_get_is_passed_on_witness :
  let e := Err "AxiosError" "Network Error" in
  let y := num 2019 in
  rejected_after_one_get (getPlayByPlay offline (num 401256194)) e /\
  rejected_after_one_get (getSummary offline (num 401256194)) e /\
  rejected_after_one_get (getPicks offline (num 401256194)) e /\
  rejected_after_one_get
    (getPlayerRankings literal_parseFloat (fun _ => no_rows) node_global offline 0
       y None VUndefined VUndefined VUndefined (Some "247")) e /\
  rejected_after_one_get
    (getSchoolCommits (fun _ => no_rows) offline (VStr "floridastate") y) e /\
  rejected_after_one_get (getRankings offline y (num 4)) e /\
  rejected_after_one_get (getSchedule offline y (num 11) (num 16) VUndefined VUndefined) e /\
  rejected_after_one_get
    (getScoreboard offline y (num 11) (num 16) VUndefined VUndefined VUndefined) e /\
  rejected_after_one_get (getConferences offline 2024 y VUndefined) e /\
  rejected_after_one_get (getStandings offline 2024 y VUndefined) e /\
  rejected_after_one_get (getTeamList offline VUndefined) e /\
  rejected_after_one_get (getTeamInfo offline (num 401256194)) e /\
  rejected_after_one_get (getTeamPlayers offline (num 401256194)) e.
Proof.
  apply (rejected_get_is_passed_on literal_parseFloat (fun _ => no_rows)
           node_global offline 0 (Err "AxiosError" "Network Error")
           (num 401256194) (num 2019) (num 11) (num 16) (num 4)
           (VStr "floridastate") VUndefined VUndefined VUndefined VUndefined
           None VUndefined VUndefined 2024 "247").
  - intros url config. reflexivity.
  - simpl. tauto.
Defined.

(* ================================================================== *)
(** ** The poll request *)
(* ================================================================== *)

(** X12.  [getRankings] sends [year] and [week] each on its own account: a
    value that is 0, empty, [null] or left out is not sent, any other is
    sent as given; and it returns the answer as it came. *)
Theorem getRankings_sends_what_is_truthy (w : World) (year week : Value) :
  requested "year" (getRankings w year week)
    = (if truthy year then Some year else None) /\
  requested "week" (getRankings w year week)
    = (if truthy week then Some week else None) /\
  outcome (getRankings w year week)
    = Some (axios_get w poll_url
              {| headers := []; params := Some (poll_params year week) |}).
Proof.
  unfold requested, getRankings. rewrite trace_get_only, outcome_get_only.
  unfold poll_params. cbn [params].
  destruct (truthy year), (truthy week); repeat split; reflexivity.
Qed.

Example getRankings_week_zero :
  trace (getRankings offline (num 2020) (num 0))
  = [AxiosGet poll_url {| headers := []; params := Some [("year", num 2020)] |}].
Proof. reflexivity. Qed.

(* ================================================================== *)
(** ** Dates given as text *)
(* ================================================================== *)

Lemma padded_spellings (n : Z) (v : Value) :
  1 <= n <= 99 -> In v (spellings n) ->
  padded v = two_digits n /\ truthy v = true.
Proof.
  intros Hn Hv.
  assert (Hall : forallb (fun k => forallb (fun v => String.eqb (padded v)
                                                       (two_digits (Z.of_nat k))
                                                     && truthy v)
                                     (spellings (Z.of_nat k)))
                   (seq 1 99) = true) by (vm_compute; reflexivity).
  rewrite forallb_forall in Hall. specialize (Hall (Z.to_nat n)).
  rewrite Z2Nat.id in Hall by lia.
  assert (Hin : In (Z.to_nat n) (seq 1 99)) by (apply in_seq; lia).
  specialize (Hall Hin). rewrite forallb_forall in Hall.
  specialize (Hall v Hv). apply andb_true_iff in Hall as (Hpad & Htruthy).
  split; [now apply String.eqb_eq|assumption].
Qed.

(** X13.  For a date, the [dates] parameter is the same YYYYMMDD whether the
    month and the day are given as numbers or as text, with or without a
    leading zero, and whether the year is a number or its text. *)
Theorem dates_from_any_spelling (y m d : Z) (year month day : Value) :
  date_triple y m d ->
  In year [num y; VStr (Z_to_string y)] ->
  In month (spellings m) ->
  In day (spellings d) ->
  dates_param year month day = [("dates", VStr (yyyymmdd y m d))].
Proof.
  intros (Hy & Hm & Hd) Hyear Hmonth Hday.
  destruct (padded_spellings m month ltac:(lia) Hmonth) as (Hpm & Htm).
  destruct (padded_spellings d day ltac:(lia) Hday) as (Hpd & Htd).
  unfold dates_param, yyyymmdd. rewrite Htm, Htd, Hpm, Hpd.
  assert (Hyear' : ToString year = four_digits y /\ truthy year = true).
  { pose proof (Z_to_string_four_digits y Hy) as Hfour.
    destruct Hyear as [<-|[<-|[]]]; cbn [ToString Number_to_string truthy num];
      rewrite ?Int_to_string_small by lia; rewrite ?Hfour; split; try reflexivity.
    apply negb_true_iff, Z.eqb_neq. lia. }
  destruct Hyear' as (-> & ->). reflexivity.
Qed.

Lemma dates_from_any_spelling_witness :
  dates_param (VStr "2019") (VStr "01") (VStr "5")
  = [("dates", VStr (yyyymmdd 2019 1 5))].
Proof.
  apply (dates_from_any_spelling 2019 1 5 (VStr "2019") (VStr "01") (VStr "5")).
  - unfold date_triple. lia.
  - right. left. reflexivity.
  - right. right. left. reflexivity.
  - right. left. reflexivity.
Defined.

(* ================================================================== *)
(** ** Trimmed fields *)
(* ================================================================== *)

Lemma string_app_assoc (a b c : string) : ((a ++ b) ++ c = a ++ (b ++ c))%string.
Proof. induction a as [|x a IH]; cbn; [reflexivity|now rewrite IH]. Qed.

Lemma string_app_nil_r (a : string) : (a ++ "")%string = a.
Proof. induction a as [|x a IH]; cbn; [reflexivity|now rewrite IH]. Qed.

Lemma rev_string_acc (s acc : string) :
  rev_string s acc = (rev_string s "" ++ acc)%string.
Proof.
  revert acc. induction s as [|c s IH]; intros acc; cbn [rev_string];
    [reflexivity|].
  rewrite (IH (String c acc)), (IH (String c "")), string_app_assoc. reflexivity.
Qed.

Lemma rev_string_twice (s acc acc' : string) :
  rev_string (rev_string s acc) acc' = rev_string acc (s ++ acc')%string.
Proof.
  revert acc acc'. induction s as [|c s IH]; intros acc acc'; cbn [rev_string];
    [reflexivity|].
  rewrite IH. reflexivity.
Qed.

Lemma rev_string_involutive (s : string) : rev_string (rev_string s "") "" = s.
Proof. rewrite rev_string_twice. cbn. apply string_app_nil_r. Qed.

Lemma rev_string_app (a b acc : string) :
  rev_string (a ++ b) acc = rev_string b (rev_string a acc).
Proof.
  revert acc. induction a as [|x a IH]; intros acc; cbn [append rev_string];
    [reflexivity|apply IH].
Qed.

Lemma trimStart_eq (a : ascii) (r : string) :
  trimStart (String a r)
  = if is_white_space a then trimStart r
    else match r with
         | EmptyString => String a r
         | String b r2 =>
             if is_white_space2 a b then trimStart r2
             else match r2 with
                  | EmptyString => String a r
                  | String c r3 =>
                      if is_white_space3 a b c then trimStart r3 else String a r
                  end
         end.
Proof. destruct r as [|b [|c r3]]; reflexivity. Qed.

Lemma trimStart_backwards_eq (a : ascii) (r : string) :
  trimStart_backwards (String a r)
  = if is_white_space a then trimStart_backwards r
    else match r with
         | EmptyString => String a r
         | String b r2 =>
             if is_white_space2 b a then trimStart_backwards r2
             else match r2 with
                  | EmptyString => String a r
                  | String c r3 =>
                      if is_white_space3 c b a then trimStart_backwards r3
                      else String a r
                  end
         end.
Proof. destruct r as [|b [|c r3]]; reflexivity. Qed.

Lemma trimStart_starts_within (n : nat) :
  forall s, (String.length s <= n)%nat ->
    starts_with_white_space (trimStart s) = false.
Proof.
  induction n as [|n IH]; intros s Hlen.
  - destruct s; [reflexivity|cbn in Hlen; lia].
  - destruct s as [|a r]; [reflexivity|]. rewrite trimStart_eq.
    destruct (is_white_space a) eqn:Ha; [apply IH; cbn in Hlen; lia|].
    destruct r as [|b r2];
      [cbn [starts_with_white_space]; now rewrite Ha|].
    destruct (is_white_space2 a b) eqn:Hab; [apply IH; cbn in Hlen; lia|].
    destruct r2 as [|c r3];
      [cbn [starts_with_white_space]; now rewrite Ha, Hab|].
    destruct (is_white_space3 a b c) eqn:Habc; [apply IH; cbn in Hlen; lia|].
    cbn [starts_with_white_space]. now rewrite Ha, Hab, Habc.
Qed.

Lemma trimStart_starts (s : string) : starts_with_white_space (trimStart s) = false.
Proof. now apply (trimStart_starts_within (String.length s)). Qed.

(** Read backwards, what [trimStart_backwards] leaves does not start with
    a white-space character. *)
Lemma trimStart_backwards_ends_within (n : nat) :
  forall s, (String.length s <= n)%nat ->
    ends_with_white_space (rev_string (trimStart_backwards s) "") = false.
Proof.
  unfold ends_with_white_space.
  induction n as [|n IH]; intros s Hlen.
  - destruct s; [reflexivity|cbn in Hlen; lia].
  - destruct s as [|a r]; [reflexivity|]. rewrite trimStart_backwards_eq.
    destruct (is_white_space a) eqn:Ha; [apply IH; cbn in Hlen; lia|].
    destruct r as [|b r2];
      [rewrite rev_string_involutive; now rewrite Ha|].
    destruct (is_white_space2 b a) eqn:Hab; [apply IH; cbn in Hlen; lia|].
    destruct r2 as [|c r3];
      [rewrite rev_string_involutive; now rewrite Ha, Hab|].
    destruct (is_white_space3 c b a) eqn:Habc; [apply IH; cbn in Hlen; lia|].
    rewrite rev_string_involutive. now rewrite Ha, Hab, Habc.
Qed.

Lemma trimEnd_ends (s : string) : ends_with_white_space (trimEnd s) = false.
Proof.
  unfold trimEnd.
  now apply (trimStart_backwards_ends_within (String.length (rev_string s ""))).
Qed.

(** [trimStart_backwards] only drops from the front. *)
Lemma trimStart_backwards_suffix_within (n : nat) :
  forall s, (String.length s <= n)%nat ->
    exists q, s = (q ++ trimStart_backwards s)%string.
Proof.
  induction n as [|n IH]; intros s Hlen.
  - destruct s; [now exists ""|cbn in Hlen; lia].
  - destruct s as [|a r]; [now exists ""|]. rewrite trimStart_backwards_eq.
    destruct (is_white_space a).
    { destruct (IH r) as (q & Hq); [cbn in Hlen; lia|].
      exists (String a q). cbn [append]. now rewrite <- Hq. }
    destruct r as [|b r2]; [now exists ""|].
    destruct (is_white_space2 b a).
    { destruct (IH r2) as (q & Hq); [cbn in Hlen; lia|].
      exists (String a (String b q)). cbn [append]. now rewrite <- Hq. }
    destruct r2 as [|c r3]; [now exists ""|].
    destruct (is_white_space3 c b a).
    { destruct (IH r3) as (q & Hq); [cbn in Hlen; lia|].
      exists (String a (String b (String c q))). cbn [append].
      now rewrite <- Hq. }
    now exists "".
Qed.

(** [trimEnd] only drops from the end. *)
Lemma trimEnd_prefix (s : string) : exists w, s = (trimEnd s ++ w)%string.
Proof.
  unfold trimEnd.
  destruct (trimStart_backwards_suffix_within
              (String.length (rev_string s "")) (rev_string s "") (le_n _))
    as (q & Hq).
  exists (rev_string q "").
  rewrite <- (rev_string_involutive s) at 1.
  rewrite Hq at 1. rewrite rev_string_app.
  apply rev_string_acc.
Qed.

Lemma starts_with_white_space_prefix (p w : string) :
  starts_with_white_space (p ++ w) = false ->
  starts_with_white_space p = false.
Proof.
  destruct p as [|a [|b [|c r3]]]; cbn [append starts_with_white_space];
    [reflexivity|..].
  - intros H. apply orb_false_elim in H as (-> & _). reflexivity.
  - intros H. apply orb_false_elim in H as (-> & H).
    apply orb_false_elim in H as (-> & _). reflexivity.
  - intros H. exact H.
Qed.

Lemma trimEnd_starts (s : string) :
  starts_with_white_space s = false ->
  starts_with_white_space (trimEnd s) = false.
Proof.
  intros Hs. destruct (trimEnd_prefix s) as (w & Hw).
  rewrite Hw in Hs. now apply starts_with_white_space_prefix in Hs.
Qed.

(** [trim] leaves no white space at either end. *)
Lemma trim_trimmed (s : string) : trimmed (trim s).
Proof.
  unfold trimmed, trim. split.
  - apply trimEnd_starts, trimStart_starts.
  - apply trimEnd_ends.
Qed.

(** White space of more than one byte is trimmed with the rest, and text
    that ends with a no-break space does not count as trimmed. *)
Example trim_unicode_white_space :
  trim (nbsp ++ " A One " ++ line_separator ++ nbsp ++ byte_order_mark) = "A One" /\
  ends_with_white_space ("A One" ++ nbsp) = true /\
  starts_with_white_space (byte_order_mark ++ "A One") = true.
Proof. repeat split; reflexivity. Qed.

(** X14.  Every record [getSchoolCommits] returns has its name, school,
    position, rating and three ranks as text with no white space at
    either end, the name and the rating not empty. *)
Theorem getSchoolCommits_returns_trimmed_text
    (cheerio_load : Value -> Cheerio) (w : World) (school year : Value)
    (players : list Value) (player : Value) :
  outcome (getSchoolCommits cheerio_load w school year) = Some (Returned players) ->
  In player players ->
  Forall (fun k => exists s, field k player = VStr s /\ trimmed s)
    ["name"; "highSchool"; "position"; "rating";
     "nationalRank"; "stateRank"; "positionRank"] /\
  field "name" player <> VStr "" /\ field "rating" player <> VStr "".
Proof.
  unfold getSchoolCommits. intros Hout Hin.
  destruct (axios_get w _ _) as [data|e]; [|discriminate Hout].
  cbn in Hout. injection Hout as <-.
  rewrite commits_of_complete_rows in Hin.
  apply in_map_iff in Hin as (html & <- & Hkept).
  apply filter_In in Hkept as (_ & Hkept).
  destruct (commit_player_named_and_rated html Hkept)
    as (name & rating & Hname & Hnonempty & Hrating & Hrated).
  split; [|split].
  - repeat constructor; eexists; (split; [reflexivity|apply trim_trimmed]).
  - rewrite Hname. congruence.
  - rewrite Hrating. congruence.
Qed.

Lemma getSchoolCommits_returns_trimmed_text_witness :
  Forall (fun k => exists s,
            field k (commit_player (commit_row "A One" "0.9512")) = VStr s /\ trimmed s)
    ["name"; "highSchool"; "position"; "rating";
     "nationalRank"; "stateRank"; "positionRank"] /\
  field "name" (commit_player (commit_row "A One" "0.9512")) <> VStr "" /\
  field "rating" (commit_player (commit_row "A One" "0.9512")) <> VStr "".
Proof.
  apply (getSchoolCommits_returns_trimmed_text (loading commits_page)
           (answering html_page) (VStr "floridastate") (num 2021)
           (commits_of commits_page)).
  - reflexivity.
  - vm_compute. left. reflexivity.
Defined.

(* ================================================================== *)
(** ** Records of the 247 branch, where [$] resolves *)
(* ================================================================== *)

Lemma rankings_247_returned
    (parseFloat : string -> Value) (cheerio_load : Value -> Cheerio)
    (g : GlobalObject) (w : World) (fuel : nat)
    (year : Value) (page : option Z) (group position state : Value)
    (service : string) (players : list Value) :
  service = "247" \/ service = "247Composite" ->
  outcome (getPlayerRankings parseFloat cheerio_load g w fuel
             year page group position state (Some service))
  = Some (Returned players) ->
  exists dollar,
    global_dollar g = Some dollar /\
    players = players_247 parseFloat dollar (match page with Some p => p | None => 1 end).
Proof.
  intros Hservice Hout.
  assert (Hextract : exists data,
            extract_rankings parseFloat cheerio_load g data
              (match page with Some p => p | None => 1 end) service
            = Returned players).
  { destruct Hservice as [-> | ->];
      (erewrite outcome_rankings_get in Hout; cycle 1;
       [reflexivity | reflexivity |]);
      destruct (axios_get w _ _) as [data|e]; cbn [bindC] in Hout;
      try discriminate Hout; exists data; now injection Hout. }
  destruct Hextract as (data & Hextract).
  rewrite extract_rankings_html in Hextract
    by (simpl; destruct Hservice as [-> | ->]; tauto).
  destruct (global_dollar g) as [dollar|]; cbn [resolve bindC] in Hextract;
    [|discriminate Hextract].
  exists dollar. split; [reflexivity|].
  destruct Hservice as [-> | ->]; cbn in Hextract; now injection Hextract.
Qed.

(** X15.  For 247 and 247Composite, in a list [getPlayerRankings] returns the
    record at position [i] (from 0) is ranked [1 + 50 * (page - 1) + i],
    [page] being 1 when the caller gives none. *)
Theorem rankings_247_are_numbered_by_page
    (parseFloat : string -> Value) (cheerio_load : Value -> Cheerio)
    (g : GlobalObject) (w : World) (fuel : nat)
    (year : Value) (page : option Z) (group position state : Value)
    (service : string) (players : list Value) (i : nat) (player : Value) :
  service = "247" \/ service = "247Composite" ->
  outcome (getPlayerRankings parseFloat cheerio_load g w fuel
             year page group position state (Some service))
  = Some (Returned players) ->
  nth_error players i = Some player ->
  field "ranking" player
  = num (1 + 50 * (match page with Some p => p | None => 1 end - 1) + Z.of_nat i).
Proof.
  intros Hservice Hout Hnth.
  destruct (rankings_247_returned _ _ _ _ _ _ _ _ _ _ _ _ Hservice Hout)
    as (dollar & _ & ->).
  now apply players_247_ranking in Hnth.
Qed.

Lemma rankings_247_are_numbered_by_page_witness :
  field "ranking" (player_247 literal_parseFloat 52 (ranking_row "A One" "0.9999"))
  = num (1 + 50 * (2 - 1) + Z.of_nat 1).
Proof.
  apply (rankings_247_are_numbered_by_page literal_parseFloat (fun _ => no_rows)
           (host_with_dollar rankings_page) (answering html_page) 0
           (num 2024) (Some 2) VUndefined VUndefined VUndefined "247"
           (players_247 literal_parseFloat rankings_page 2) 1).
  - left. reflexivity.
  - reflexivity.
  - reflexivity.
Defined.

Lemma parseInt10_of_nothing : parseInt10 (VStr (trim "")) = NaN.
Proof. reflexivity. Qed.

(** X16.  For 247 and 247Composite, the record at position [i] of the list
    [getPlayerRankings] returns is read from row [i] of the page that [$]
    resolves to: its [weight] is the whole number the row's metrics show
    after the first slash, as a double, and 0 where they show none (never
    NaN); its [college] is the title of the row's logo, and "uncommitted"
    where the title is missing or empty (never empty). *)
Theorem rankings_247_weight_and_college
    (parseFloat : string -> Value) (cheerio_load : Value -> Cheerio)
    (g : GlobalObject) (w : World) (fuel : nat)
    (year : Value) (page : option Z) (group position state : Value)
    (service : string) (players : list Value) (i : nat) (player : Value) :
  service = "247" \/ service = "247Composite" ->
  outcome (getPlayerRankings parseFloat cheerio_load g w fuel
             year page group position state (Some service))
  = Some (Returned players) ->
  nth_error players i = Some player ->
  exists dollar html,
    global_dollar g = Some dollar /\
    nth_error (dollar selector_247) i = Some html /\
    field "weight" player = shown_weight html /\
    field "weight" player <> VNum NaN /\
    field "college" player = VStr (shown_college html) /\
    shown_college html <> "".
Proof.
  intros Hservice Hout Hnth.
  destruct (rankings_247_returned _ _ _ _ _ _ _ _ _ _ _ _ Hservice Hout)
    as (dollar & Hdollar & ->).
  unfold players_247 in Hnth.
  apply each_ranked_nth in Hnth as (html & Hrow & ->).
  exists dollar, html. split; [assumption|]. split; [assumption|].
  assert (Hweight : field "weight"
                      (player_247 parseFloat
                         (1 + 50 * (match page with Some p => p | None => 1 end - 1)
                          + Z.of_nat i) html)
                    = shown_weight html).
  { unfold field, player_247, shown_weight.
    cbn [get assoc String.eqb Ascii.eqb Bool.eqb].
    destruct (nth_error _ 1) as [part|]; [|reflexivity].
    destruct (str_eqb part "") eqn:Hpart; cbn [negb]; [|reflexivity].
    apply String.eqb_eq in Hpart. subst part.
    now rewrite parseInt10_of_nothing. }
  assert (Hcollege : field "college"
                       (player_247 parseFloat
                          (1 + 50 * (match page with Some p => p | None => 1 end - 1)
                           + Z.of_nat i) html)
                     = VStr (shown_college html)).
  { unfold field, player_247, shown_college.
    cbn [get assoc String.eqb Ascii.eqb Bool.eqb].
    destruct (find_attr html _ _) as [title|]; [|reflexivity].
    destruct (str_eqb title ""); reflexivity. }
  rewrite Hweight, Hcollege. repeat split.
  - unfold shown_weight. destruct (nth_error _ 1) as [part|]; [|discriminate].
    destruct (parseInt10 _); discriminate.
  - unfold shown_college. destruct (find_attr html _ _) as [title|]; [|discriminate].
    destruct (str_eqb title "") eqn:Htitle; [discriminate|].
    intros ->. discriminate Htitle.
Qed.

Lemma rankings_247_weight_and_college_witness :
  exists dollar html,
    global_dollar (host_with_dollar rankings_page) = Some dollar /\
    nth_error (dollar selector_247) 1 = Some html /\
    field "weight" (player_247 literal_parseFloat 2 (ranking_row "A One" "0.9999"))
    = shown_weight html /\
    field "weight" (player_247 literal_parseFloat 2 (ranking_row "A One" "0.9999"))
    <> VNum NaN /\
    field "college" (player_247 literal_parseFloat 2 (ranking_row "A One" "0.9999"))
    = VStr (shown_college html) /\
    shown_college html <> "".
Proof.
  apply (rankings_247_weight_and_college literal_parseFloat (fun _ => no_rows)
           (host_with_dollar rankings_page) (answering html_page) 0
           (num 2024) None VUndefined VUndefined VUndefined "247"
           (players_247 literal_parseFloat rankings_page 1) 1).
  - left. reflexivity.
  - reflexivity.
  - reflexivity.
Defined.

(** A player of 210 pounds; a decoration row; and a committed player whose
    weight is rounded as a double is. *)
Example rankings_247_weights :
  map (fun html => (field "weight" (player_247 literal_parseFloat 1 html),
                    field "college" (player_247 literal_parseFloat 1 html)))
    [ranking_row "A One" "0.9999"; decoration_row; committed_row]
  = [(num 210, VStr "uncommitted"); (num 0, VStr "uncommitted");
     (num 9007199254740992, VStr "Texas")].
Proof. reflexivity. Qed.

(* ================================================================== *)
(** ** Team rankings *)
(* ================================================================== *)

Lemma replace_from_done (pat by_ s : string) : replace_from pat by_ s 0 true = s.
Proof.
  induction s as [|c s IH]; cbn [replace_from negb andb]; [reflexivity|].
  now rewrite IH.
Qed.

(** A label of three characters in front of the text is taken away. *)
Lemma replace_label (x y z : ascii) (n : string) :
  replace (String x (String y (String z ""))) ""
    (String x (String y (String z n))) = n.
Proof.
  unfold replace. cbn [replace_from negb andb].
  assert (Hp : prefix (String x (String y (String z "")))
                 (String x (String y (String z n))) = true).
  { cbn [prefix]. destruct (ascii_dec x x); [|congruence].
    destruct (ascii_dec y y); [|congruence].
    destruct (ascii_dec z z); [|congruence]. destruct n; reflexivity. }
  rewrite Hp. cbn [String.length Nat.pred replace_from append].
  apply replace_from_done.
Qed.

(** X17.  What [getSchoolRankings] returns is read from the answer to its
    GET of the year's team rankings page, page 1 unless the caller names
    one: one record for every list item of that page, header items
    included, in page order; where an item's star entries read "5: a",
    "4: b" and "3: c", the record holds [a], [b] and [c] trimmed, the
    labels gone. *)
Theorem getSchoolRankings_keeps_every_item
    (load_items : Value -> string -> list RankingItem)
    (w : World) (year page : Value) (schools : list Value) :
  outcome (getSchoolRankings load_items w year page) = Some (Returned schools) ->
  exists data,
    axios_get w (team_rankings_url year) (team_rankings_config page)
    = Returned data /\
    let items := load_items data ".rankings-page__list-item" in
    List.length schools = List.length items /\
    forall i html a b c,
      nth_error items i = Some html ->
      find_nth_text html star_commits 0 = "5: " ++ a ->
      find_nth_text html star_commits 1 = "4: " ++ b ->
      find_nth_text html star_commits 2 = "3: " ++ c ->
      exists school,
        nth_error schools i = Some school /\
        field "fiveStars" school = VStr (trim a) /\
        field "fourStars" school = VStr (trim b) /\
        field "threeStars" school = VStr (trim c).
Proof.
  unfold getSchoolRankings. fold (team_rankings_url year). intros Hout.
  change {| headers := [user_agent];
            params := Some [("Page", default_to (num 1) page)] |}
    with (team_rankings_config page) in Hout.
  destruct (axios_get w (team_rankings_url year) (team_rankings_config page))
    as [data|e]; [|discriminate Hout].
  cbn in Hout. injection Hout as <-.
  exists data. split; [reflexivity|]. cbn zeta. split; [apply length_map|].
  intros i html a b c Hnth Hfive Hfour Hthree.
  exists (school_record html). split; [now apply map_nth_error|].
  unfold field, school_record.
  cbn [get assoc String.eqb Ascii.eqb Bool.eqb].
  rewrite Hfive, Hfour, Hthree. cbn [append].
  rewrite !replace_label. repeat split; reflexivity.
Qed.

Lemma getSchoolRankings_keeps_every_item_witness :
  exists data,
    axios_get (answering html_page)
      (team_rankings_url (num 2021)) (team_rankings_config VUndefined)
    = Returned data /\
    let items := loading_items team_items data ".rankings-page__list-item" in
    List.length (map school_record team_items) = List.length items /\
    forall i html a b c,
      nth_error items i = Some html ->
      find_nth_text html star_commits 0 = "5: " ++ a ->
      find_nth_text html star_commits 1 = "4: " ++ b ->
      find_nth_text html star_commits 2 = "3: " ++ c ->
      exists school,
        nth_error (map school_record team_items) i = Some school /\
        field "fiveStars" school = VStr (trim a) /\
        field "fourStars" school = VStr (trim b) /\
        field "threeStars" school = VStr (trim c).
Proof.
  apply (getSchoolRankings_keeps_every_item (loading_items team_items)
           (answering html_page) (num 2021) VUndefined).
  reflexivity.
Defined.

Example getSchoolRankings_team_items :
  outcome (getSchoolRankings (loading_items team_items) (answering html_page)
             (num 2021) VUndefined)
  = Some (Returned [
      VObj [("rank", VStr ""); ("school", VStr ""); ("totalCommits", VStr "");
            ("fiveStars", VStr ""); ("fourStars", VStr ""); ("threeStars", VStr "");
            ("averageRating", VStr ""); ("points", VStr "")];
      VObj [("rank", VStr ""); ("school", VStr "Alabama"); ("totalCommits", VStr "");
            ("fiveStars", VStr "7"); ("fourStars", VStr "15"); ("threeStars", VStr "3");
            ("averageRating", VStr ""); ("points", VStr "")] ]).
Proof. reflexivity. Qed.

(** Nothing is read from an answer that is not the page. *)
Example getSchoolRankings_other_answer :
  outcome (getSchoolRankings (loading_items team_items) (answering VNull)
             (num 2021) VUndefined)
  = Some (Returned []).
Proof. reflexivity. Qed.
